(** * kernel_gate: the metadata reconciliation DAG, embedded in Rocq

    A shallow embedding of [airflow/dags/kernel_gate.py]: the two record
    normalizers ([journal_as_kernel], [issue_as_kernel]), the bundle
    identity ([issue_id]), the create-or-patch protocol
    ([register_or_update]) and the two batch drivers ([process_journals],
    [process_issues]).

    Conventions.
    - A Python [str] is a [string] whose characters are read as the code
      points U+0000 .. U+00FF (Latin-1).
    - A Python [dict] with [str] keys is a [gmap string _]; the order in
      which a dict enumerates its items is not observable in any function
      below except through the lists built from [mission] and [titles],
      which are therefore kept as association lists.
    - Code that can raise returns a [result]; code that talks to the
      remote store threads a [Net] state (the store and the log of the
      requests sent). *)

From Stdlib Require Import ZArith String List Ascii DecimalString Lia.
From stdpp Require Import base gmap strings list fin_maps.

#[local] Set Warnings "-register-all".
Local Open Scope string_scope.
Local Open Scope Z_scope.

(* ================================================================== *)
(** ** Exceptions and fallible computations *)

Inductive exn :=
| ValueError | TypeError | KeyError | IndexError | AttributeError
| ConnectionError.

Inductive result (A : Type) :=
| Ok (a : A)
| Raise (e : exn).
Arguments Ok {A} a.
Arguments Raise {A} e.

#[global] Instance result_ret : MRet result := fun _ a => Ok a.
#[global] Instance result_bind : MBind result := fun _ _ f m =>
  match m with
  | Ok a => f a
  | Raise e => Raise e
  end.

Definition is_ok {A} (r : result A) : bool :=
  match r with Ok _ => true | Raise _ => false end.

(** [[f(x) for x in xs]]: the comprehension stops at the first element
    whose evaluation raises. *)
Fixpoint comprehension {A B} (f : A -> result B) (xs : list A)
  : result (list B) :=
  match xs with
  | [] => Ok []
  | x :: xs' =>
      y ← f x;
      ys ← comprehension f xs';
      Ok (y :: ys)
  end.

(* ================================================================== *)
(** ** Python values *)

Module Py.

(** The values that travel in payloads and in JSON bodies. *)
Inductive value :=
| VNone
| VBool (b : bool)
| VInt (z : Z)
| VStr (s : string)
| VList (l : list value)
| VDict (d : gmap string value).

Abbreviation dict := (gmap string value).

(** Truth value testing ([if v:], [a or b]). *)
Definition truthy (v : value) : bool :=
  match v with
  | VNone => false
  | VBool b => b
  | VInt z => negb (z =? 0)
  | VStr s => negb (String.eqb s "")
  | VList l => match l with [] => false | _ => true end
  | VDict d => negb (bool_decide (size d = 0%nat))
  end.

(** [a or b]. *)
Definition or_ (a b : value) : value := if truthy a then a else b.

(** An optional [str] attribute: [None] or the string. *)
Definition ostr (o : option string) : value :=
  match o with Some s => VStr s | None => VNone end.

(** Truthiness of an optional attribute whose value can be tested with
    [if x:]. *)
Definition some_str (o : option string) : bool := truthy (ostr o).

Definition some_list {A} (o : option (list A)) : bool :=
  match o with Some (_ :: _) => true | _ => false end.

(** [a == b].  [bool] is a subclass of [int], so [True == 1]; lists
    compare element by element in order, dicts key by key. *)
Fixpoint eq_ (a b : value) : bool :=
  match a, b with
  | VNone, VNone => true
  | VBool x, VBool y => Bool.eqb x y
  | VBool x, VInt y => Z.b2z x =? y
  | VInt x, VBool y => x =? Z.b2z y
  | VInt x, VInt y => x =? y
  | VStr x, VStr y => String.eqb x y
  | VList l1, VList l2 =>
      (fix go (l1 l2 : list value) : bool :=
         match l1, l2 with
         | [], [] => true
         | x :: l1', y :: l2' => eq_ x y && go l1' l2'
         | _, _ => false
         end) l1 l2
  | VDict d1, VDict d2 =>
      map_fold (fun k x acc =>
                  acc && match d2 !! k with
                         | Some y => eq_ x y
                         | None => false
                         end) true d1
      && bool_decide (dom d1 = dom d2)
  | _, _ => false
  end.

(** [d.get(k)]: the value, or [None] when the key is missing. *)
Definition get (d : dict) (k : string) : value := default VNone (d !! k).

(** [d.pop(k)]: the value and the dict without the key; [KeyError] when
    the key is missing. *)
Definition pop (d : dict) (k : string) : result (value * dict) :=
  match d !! k with
  | Some v => Ok (v, delete k d)
  | None => Raise KeyError
  end.

(** *** Strings *)

Definition code (c : ascii) : Z := Z.of_nat (nat_of_ascii c).
Definition chr (z : Z) : ascii := ascii_of_nat (Z.to_nat z).

Definition chars (s : string) : list ascii := list_ascii_of_string s.
Definition of_chars (l : list ascii) : string := string_of_list_ascii l.

(** The decimal digits [0]..[9] (Unicode category Nd within Latin-1). *)
Definition is_decimal (c : ascii) : bool :=
  (48 <=? code c) && (code c <=? 57).

(** Characters for which [str.isdigit] holds: the decimal digits and the
    superscript digits U+00B2, U+00B3, U+00B9. *)
Definition is_digit_char (c : ascii) : bool :=
  is_decimal c || (code c =? 178) || (code c =? 179) || (code c =? 185).

(** [s.isdigit()]: at least one character, and all of them digits. *)
Definition isdigit (s : string) : bool :=
  match chars s with
  | [] => false
  | cs => forallb is_digit_char cs
  end.

(** [s.isdecimal()], used only in statements. *)
Definition isdecimal (s : string) : bool :=
  match chars s with
  | [] => false
  | cs => forallb is_decimal cs
  end.

(** White space recognised by [int()] and [str.strip()] within Latin-1. *)
Definition is_space (c : ascii) : bool :=
  let n := code c in
  ((9 <=? n) && (n <=? 13)) || ((28 <=? n) && (n <=? 32))
  || (n =? 133) || (n =? 160).

Fixpoint lstrip (cs : list ascii) : list ascii :=
  match cs with
  | c :: cs' => if is_space c then lstrip cs' else cs
  | [] => []
  end.

Definition strip (cs : list ascii) : list ascii :=
  rev (lstrip (rev (lstrip cs))).

(** The digits of an integer literal: decimal digits, single underscores
    allowed between two digits. [seen] tells whether the previous
    character was a digit. *)
Fixpoint int_digits (cs : list ascii) (acc : Z) (seen : bool) : option Z :=
  match cs with
  | [] => if seen then Some acc else None
  | c :: cs' =>
      if is_decimal c then int_digits cs' (10 * acc + (code c - 48)) true
      else if (code c =? 95) && seen then int_digits cs' acc false
      else None
  end.

(** [int(s)] for a [str] argument, base ten. *)
Definition int (s : string) : result Z :=
  let body :=
    match strip (chars s) with
    | c :: cs' =>
        if code c =? 45 then option_map Z.opp (int_digits cs' 0 false)
        else if code c =? 43 then int_digits cs' 0 false
        else int_digits (c :: cs') 0 false
    | [] => None
    end in
  match body with
  | Some z => Ok z
  | None => Raise ValueError
  end.

(** [str(n)] for an [int]. *)
Definition str (z : Z) : string := NilZero.string_of_int (Z.to_int z).

(** [sep.join(parts)]. *)
Definition join (sep : string) (parts : list string) : string :=
  String.concat sep parts.

(** [s.upper()].  Lower-case ASCII and Latin-1 letters move to their
    capitals and U+00DF becomes "SS"; the capitals of U+00B5 and U+00FF
    lie outside Latin-1, and those two characters are left as they are. *)
Definition upper_char (c : ascii) : list ascii :=
  let n := code c in
  if (97 <=? n) && (n <=? 122) then [chr (n - 32)]
  else if n =? 223 then [chr 83; chr 83]
  else if (224 <=? n) && (n <=? 254) && negb (n =? 247) then [chr (n - 32)]
  else [c].

Definition upper (s : string) : string :=
  of_chars (concat (map upper_char (chars s))).

(** [a is b] for two [str] operands that are both literals of the
    program text: CPython interns such constants, so the two operands are
    the same object exactly when they have the same characters. *)
Definition is_literal (a b : string) : bool := String.eqb a b.

End Py.

(* ================================================================== *)
(** ** DeepDiff *)

Module DeepDiff.
Import Py.

(** [equal_unordered a b]: [a] and [b] have the same type and the same
    content, where two lists are the same when each element of one has
    an equal element in the other (order and repetition are ignored, as
    [ignore_order=True] without [report_repetition] does) and two dicts
    are the same when they have the same keys with the same values. *)
Fixpoint equal_unordered (a b : value) : bool :=
  match a, b with
  | VNone, VNone => true
  | VBool x, VBool y => Bool.eqb x y
  | VInt x, VInt y => x =? y
  | VStr x, VStr y => String.eqb x y
  | VList l1, VList l2 =>
      forallb (fun x => existsb (fun y => equal_unordered x y) l2) l1
      && forallb (fun y => existsb (fun x => equal_unordered x y) l1) l2
  | VDict d1, VDict d2 =>
      map_fold (fun k x acc =>
                  acc && match d2 !! k with
                         | Some y => equal_unordered x y
                         | None => false
                         end) true d1
      && bool_decide (dom d1 = dom d2)
  | _, _ => false
  end.

(** The truth value of [DeepDiff(t1, t2, ignore_order=True)]: the report
    is non-empty exactly when the two trees differ. *)
Definition DeepDiff (t1 t2 : value) : bool := negb (equal_unordered t1 t2).

End DeepDiff.

(* ================================================================== *)
(** ** datetime.strptime, for the three formats the DAG uses *)

Module Datetime.
Import Py.

Record datetime := { year : Z; month : Z; day : Z }.

Inductive format :=
| Ymd   (* "%Y-%m-%d" *)
| Ym    (* "%Y-%m" *)
| Y.    (* "%Y" *)

(** A character in the class [[lo-hi]] of decimal digits, as its value. *)
Definition in_class (lo hi : Z) (c : ascii) : option Z :=
  let d := code c - 48 in
  if (lo <=? d) && (d <=? hi) then Some d else None.

(** [%Y]: four decimal digits. *)
Definition directive_Y (cs : list ascii) : option (Z * list ascii) :=
  match cs with
  | a :: b :: c :: d :: rest =>
      a ← in_class 0 9 a; b ← in_class 0 9 b;
      c ← in_class 0 9 c; d ← in_class 0 9 d;
      Some (1000 * a + 100 * b + 10 * c + d, rest)
  | _ => None
  end.

(** [%m]: [1[0-2]|0[1-9]|[1-9]], the alternatives tried in this order. *)
Definition directive_m (cs : list ascii) : option (Z * list ascii) :=
  match cs with
  | a :: rest =>
      let two :=
        match rest with
        | b :: rest' =>
            match in_class 1 1 a, in_class 0 2 b with
            | Some _, Some y => Some (10 + y, rest')
            | _, _ =>
                match in_class 0 0 a, in_class 1 9 b with
                | Some _, Some y => Some (y, rest')
                | _, _ => None
                end
            end
        | [] => None
        end in
      match two with
      | Some r => Some r
      | None => x ← in_class 1 9 a; Some (x, rest)
      end
  | [] => None
  end.

(** [%d]: [3[0-1]|[1-2]\d|0[1-9]|[1-9]| [1-9]]. *)
Definition directive_d (cs : list ascii) : option (Z * list ascii) :=
  match cs with
  | a :: rest =>
      let two :=
        match rest with
        | b :: rest' =>
            match in_class 3 3 a, in_class 0 1 b with
            | Some _, Some y => Some (30 + y, rest')
            | _, _ =>
                match in_class 1 2 a, in_class 0 9 b with
                | Some x, Some y => Some (10 * x + y, rest')
                | _, _ =>
                    match in_class 0 0 a, in_class 1 9 b with
                    | Some _, Some y => Some (y, rest')
                    | _, _ => None
                    end
                end
            end
        | [] => None
        end in
      match two with
      | Some r => Some r
      | None =>
          match in_class 1 9 a with
          | Some x => Some (x, rest)
          | None =>
              match rest with
              | b :: rest' =>
                  if code a =? 32
                  then y ← in_class 1 9 b; Some (y, rest')
                  else None
              | [] => None
              end
          end
      end
  | [] => None
  end.

(** The literal [-] of the format. *)
Definition dash (cs : list ascii) : option (list ascii) :=
  match cs with
  | c :: rest => if code c =? 45 then Some rest else None
  | [] => None
  end.

Definition is_leap (y : Z) : bool :=
  ((y mod 4 =? 0) && negb (y mod 100 =? 0)) || (y mod 400 =? 0).

Definition days_in_month (y m : Z) : Z :=
  if m =? 2 then (if is_leap y then 29 else 28)
  else if (m =? 4) || (m =? 6) || (m =? 9) || (m =? 11) then 30
  else 31.

(** The fields matched by the format's regular expression, and what is
    left of the input; month and day default to 1. *)
Definition match_format (f : format) (cs : list ascii)
  : option (datetime * list ascii) :=
  '(y, cs) ← directive_Y cs;
  match f with
  | Y => Some ({| year := y; month := 1; day := 1 |}, cs)
  | Ym =>
      cs ← dash cs; '(m, cs) ← directive_m cs;
      Some ({| year := y; month := m; day := 1 |}, cs)
  | Ymd =>
      cs ← dash cs; '(m, cs) ← directive_m cs;
      cs ← dash cs; '(d, cs) ← directive_d cs;
      Some ({| year := y; month := m; day := d |}, cs)
  end.

(** [datetime.strptime(date_string, format)]: [TypeError] when the
    argument is not a [str]; [ValueError] when the format does not
    match, when input remains after the match, or when the fields are
    not a date of the calendar (years run from 1 to 9999). *)
Definition strptime (date_string : option string) (f : format)
  : result datetime :=
  match date_string with
  | None => Raise TypeError
  | Some s =>
      match match_format f (chars s) with
      | Some (dt, []) =>
          if (1 <=? year dt) && (day dt <=? days_in_month (year dt) (month dt))
          then Ok dt
          else Raise ValueError
      | _ => Raise ValueError
      end
  end.

(** [try: body except ValueError: handler] *)
Definition try_except_ValueError {A} (body handler : result A) : result A :=
  match body with
  | Raise ValueError => handler
  | r => r
  end.

End Datetime.

(* ================================================================== *)
(** ** Legacy records

    The attributes of [xylose.scielodocument.Journal] and [Issue] that
    the DAG reads.  An attribute that is missing from the legacy record
    reads as [None]. *)

Module Xylose.

Record Journal := {
  any_issn : option string;            (* journal.any_issn() *)
  scielo_issn : option string;
  print_issn : option string;
  electronic_issn : option string;
  mission : option (list (string * string));
  title : option string;
  abbreviated_iso_title : option string;
  abbreviated_title : option string;
  acronym : option string;
  (* (date, status, reason) *)
  status_history : option (list (string * string * option string));
  subject_areas : option (list string);
  sponsors : option (list string);
  wos_subject_areas : option (list string);
  submission_url : option string;
  next_title : option string;
  previous_title : option string;
  editor_email : option string;
  editor_address : option string;
}.

Record Issue := {
  type : string;
  volume : option string;
  number : option string;
  supplement_volume : option string;
  supplement_number : option string;
  titles : option (list (string * string));
  start_month : option string;
  end_month : option string;
  publication_date : option string;
  (* issue.data["issue"].get("v35"): the occurrences of field 35, each a
     mapping from subfield to text *)
  v35 : option (list (gmap string string));
}.

End Xylose.

(* ================================================================== *)
(** ** The DAG *)

Module KernelGate.
Import Py Xylose.

Definition KERNEL_API_JOURNAL_ENDPOINT := "/journals/".
Definition KERNEL_API_BUNDLES_ENDPOINT := "/bundles/".

(** [[{"language": lang, "value": value} for lang, value in d.items()]] *)
Definition language_values (items : list (string * string)) : value :=
  VList (map (fun '(lang, value) =>
                VDict {[ "language" := VStr lang; "value" := VStr value ]})
             items).

(** The body of the loop over [journal.subject_areas]. *)
Definition subject_area_entry (subject_area : string) : value :=
  let subject_area :=
    if String.eqb (upper subject_area) "LINGUISTICS, LETTERS AND ARTS"
    then "LINGUISTIC, LITERATURE AND ARTS"
    else subject_area in
  VStr (upper subject_area).

Definition journal_as_kernel (journal : Journal) : dict :=
  let _payload : dict := ∅ in
  let _id := ostr (any_issn journal) in
  let _id := if negb (truthy _id) then ostr (scielo_issn journal) else _id in
  let _payload := <["_id" := _id]> _payload in
  let _payload :=
    if some_list (mission journal)
    then <["mission" := language_values (default [] (mission journal))]>
           _payload
    else <["mission" := VList []]> _payload in
  let _payload :=
    <["title" := or_ (ostr (title journal)) (VStr "")]> _payload in
  let _payload :=
    <["title_iso" := or_ (ostr (abbreviated_iso_title journal)) (VStr "")]>
      _payload in
  let _payload :=
    <["short_title" := or_ (ostr (abbreviated_title journal)) (VStr "")]>
      _payload in
  let _payload :=
    <["acronym" := or_ (ostr (acronym journal)) (VStr "")]> _payload in
  let _payload :=
    <["scielo_issn" := or_ (ostr (scielo_issn journal)) (VStr "")]>
      _payload in
  let _payload :=
    <["print_issn" := or_ (ostr (print_issn journal)) (VStr "")]> _payload in
  let _payload :=
    <["electronic_issn" := or_ (ostr (electronic_issn journal)) (VStr "")]>
      _payload in
  let _payload :=
    <["status" :=
        (* status_history[-1], when the history is not empty *)
        match last (default [] (status_history journal)) with
        | Some (_, status, reason) =>
            let _status : dict := {[ "status" := VStr status ]} in
            if some_str reason
            then VDict (<["reason" := ostr reason]> _status)
            else VDict _status
        | None => VDict ∅
        end]> _payload in
  let _payload :=
    <["subject_areas" :=
        if some_list (subject_areas journal)
        then VList (map subject_area_entry
                        (default [] (subject_areas journal)))
        else VList []]> _payload in
  let _payload :=
    <["sponsors" :=
        if some_list (sponsors journal)
        then VList (map (fun sponsor =>
                           VDict {[ "name" := VStr sponsor ]})
                        (default [] (sponsors journal)))
        else VList []]> _payload in
  let _payload :=
    <["subject_categories" :=
        if some_list (wos_subject_areas journal)
        then VList (map VStr (default [] (wos_subject_areas journal)))
        else VList []]> _payload in
  let _payload :=
    <["online_submission_url" :=
        or_ (ostr (submission_url journal)) (VStr "")]> _payload in
  let _payload :=
    <["next_journal" :=
        if some_str (next_title journal)
        then VDict {[ "name" := ostr (next_title journal) ]}
        else VDict ∅]> _payload in
  let _payload :=
    <["previous_journal" :=
        if some_str (previous_title journal)
        then VDict {[ "name" := ostr (previous_title journal) ]}
        else VDict ∅]> _payload in
  let contact : dict := ∅ in
  let contact :=
    if some_str (editor_email journal)
    then <["email" := ostr (editor_email journal)]> contact
    else contact in
  let contact :=
    if some_str (editor_address journal)
    then <["address" := ostr (editor_address journal)]> contact
    else contact in
  <["contact" := VDict contact]> _payload.

(** *** issue_id *)

(** One turn of the second loop of [issue_id]: append [prefix + value]
    when the component is present, after the integer round trip when it
    passes [isdigit]. *)
Definition append_component (data : gmap string (option string))
    (_id : list string) (lp : string * string) : result (list string) :=
  let '(label, prefix) := lp in
  match mjoin (data !! label) with
  | Some value =>
      if negb (String.eqb value "") then
        value ← (if isdigit value
                 then n ← int value; Ok (str n)
                 else Ok value);
        Ok (_id ++ [prefix +:+ value])%list
      else Ok _id
  | None => Ok _id
  end.

Fixpoint for_components (data : gmap string (option string))
    (labels : list (string * string)) (_id : list string)
  : result (list string) :=
  match labels with
  | [] => Ok _id
  | lp :: labels' =>
      _id ← append_component data _id lp;
      for_components data labels' _id
  end.

(** The components of the identity, before they are joined. *)
Definition issue_id_parts (issn_id year volume number supplement
                             : option string) : result (list string) :=
  let labels := ["issn_id"; "year"; "volume"; "number"; "supplement"] in
  let values := [issn_id; year; volume; number; supplement] in
  let data : gmap string (option string) :=
    list_to_map (zip labels values) in
  let labels := ["issn_id"; "year"] in
  let _id :=
    fold_left (fun _id label =>
                 match mjoin (data !! label) with
                 | Some value =>
                     if negb (String.eqb value "")
                     then (_id ++ [value])%list else _id
                 | None => _id
                 end) labels [] in
  let labels := [("volume", "v"); ("number", "n"); ("supplement", "s")] in
  for_components data labels _id.

Definition issue_id (issn_id year volume number supplement : option string)
  : result string :=
  _id ← issue_id_parts issn_id year volume number supplement;
  Ok (join "-" _id).

(** *** issue_as_kernel *)

Definition parse_date (date : option string) : result Datetime.datetime :=
  Datetime.try_except_ValueError
    (Datetime.strptime date Datetime.Ymd)
    (Datetime.try_except_ValueError
       (Datetime.strptime date Datetime.Ym)
       (Datetime.strptime date Datetime.Y)).

(** [sorted(set([a, b]))] *)
Definition sorted_set2 (a b : Z) : list Z :=
  if a =? b then [a] else if a <? b then [a; b] else [b; a].

(** [issue.data.get("issue").get("v35")[0]["_"]] *)
Definition v35_issn (issue : Issue) : result string :=
  match v35 issue with
  | None => Raise TypeError
  | Some [] => Raise IndexError
  | Some (occ :: _) =>
      match occ !! "_" with
      | Some s => Ok s
      | None => Raise KeyError
      end
  end.

Definition issue_as_kernel (issue : Issue) : result dict :=
  let _payload : dict := ∅ in
  let _payload :=
    <["volume" := or_ (ostr (volume issue)) (VStr "")]> _payload in
  let _payload :=
    <["number" := or_ (ostr (number issue)) (VStr "")]> _payload in
  let _payload :=
    if is_literal (type issue) "supplement"
    then <["supplement" :=
             or_ (or_ (ostr (supplement_volume issue))
                      (ostr (supplement_number issue)))
                 (VStr "0")]> _payload
    else _payload in
  let _payload :=
    if some_list (titles issue)
    then <["titles" := language_values (default [] (titles issue))]> _payload
    else <["titles" := VList []]> _payload in
  _payload ←
    (if some_str (start_month issue) && some_str (end_month issue)
     then
       a ← int (default "" (start_month issue));
       b ← int (default "" (end_month issue));
       Ok (<["publication_season" := VList (map VInt (sorted_set2 a b))]>
             _payload)
     else Ok (<["publication_season" := VList []]> _payload));
  issn_id ← v35_issn issue;
  _creation_date ← parse_date (publication_date issue);
  _id ← issue_id (Some issn_id)
                 (Some (str (Datetime.year _creation_date)))
                 (volume issue)
                 (number issue)
                 (match get _payload "supplement" with
                  | VStr s => Some s
                  | _ => None
                  end);
  Ok (<["_id" := VStr _id]> _payload).

(** *** HTTP requests *)

Inductive method := GET | PUT | PATCH.

(** A request as [HttpHook.run] sends it.  [data] is the dict that
    [json.dumps] serialises, when the call passes one. *)
Record request := {
  req_method : method;
  endpoint : string;
  data : option dict;
}.

(** What the DAG reads of a response: [status_code], and the value
    [response.json()] decodes ([None] when the body is not JSON). *)
Record response := {
  status_code : Z;
  body : option value;
}.

Definition NOT_FOUND := 404.
Definition OK := 200.

Section Transport.

(** The remote side: its state, and how it answers one request.  A
    transport failure (no connection, timeout) is a raised exception;
    [check_response] is [False] in every call, so no status code makes
    [run] raise. *)
Context {World : Type}.
Variable run : request -> World -> result response * World.

(** The state threaded through the DAG's tasks: the remote side and the
    requests sent so far, oldest first. *)
Record Net := { world : World; sent : list request }.

Definition M (A : Type) : Type := Net -> result A * Net.

Definition ret {A} (a : A) : M A := fun st => (Ok a, st).

Definition bind {A B} (m : M A) (k : A -> M B) : M B := fun st =>
  match m st with
  | (Ok a, st') => k a st'
  | (Raise e, st') => (Raise e, st')
  end.

Definition lift {A} (r : result A) : M A := fun st => (r, st).

Notation "x <- m ;; k" := (bind m (fun x => k))
  (at level 100, m at next level, right associativity).

(** [HttpHook(http_conn_id="kernel_conn", method=m).run(endpoint, data,
    extra_options={"check_response": False})] *)
Definition HttpHook_run (m : method) (ep : string) (d : option dict)
  : M response := fun st =>
  let r := {| req_method := m; endpoint := ep; data := d |} in
  let '(res, w) := run r (world st) in
  (res, {| world := w; sent := (sent st ++ [r])%list |}).

(** [response.json()["metadata"]] *)
Definition json_metadata (r : response) : result value :=
  match body r with
  | None => Raise ValueError
  | Some (VDict d) =>
      match d !! "metadata" with
      | Some m => Ok m
      | None => Raise KeyError
      end
  | Some _ => Raise TypeError
  end.

(** [{k: v for k, v in payload.items() if v}] *)
Definition create_payload (payload : dict) : dict :=
  filter (fun kv : string * value => truthy kv.2 = true) payload.

(** The condition of the second comprehension:
    [_metadata.get(k) or _metadata.get(k) == v or v]. *)
Definition keep (_metadata : dict) (k : string) (v : value) : bool :=
  truthy (get _metadata k) || eq_ (get _metadata k) v || truthy v.

(** [{k: v for k, v in payload.items()
      if _metadata.get(k) or _metadata.get(k) == v or v}];
    [.get] is looked up once per item, so a [_metadata] that is not a
    dict raises only when [payload] has an item. *)
Definition patch_payload (_metadata : value) (payload : dict)
  : result dict :=
  match _metadata with
  | VDict m =>
      Ok (filter (fun kv : string * value => keep m kv.1 kv.2 = true) payload)
  | _ =>
      if bool_decide (size payload = 0%nat) then Ok payload
      else Raise AttributeError
  end.

Definition register_or_update (_id : string) (payload : dict)
    (entity_url : string) : M response :=
  response <- HttpHook_run GET (entity_url +:+ _id) None ;;
  if status_code response =? NOT_FOUND then
    let payload := create_payload payload in
    HttpHook_run PUT (entity_url +:+ _id) (Some payload)
  else if status_code response =? OK then
    _metadata <- lift (json_metadata response) ;;
    payload <- lift (patch_payload _metadata payload) ;;
    if DeepDiff.DeepDiff _metadata (VDict payload) then
      HttpHook_run PATCH (entity_url +:+ _id) (Some payload)
    else ret response
  else ret response.

(** *** Batch drivers *)

(** ["{}{}".format(entity_url, _id)] renders the identity; what the
    normalizers store under ["_id"] is a [str], or [None] for a journal
    without any ISSN. *)
Definition format_id (_id : value) : string :=
  match _id with
  | VStr s => s
  | _ => "None"
  end.

(** [for entity in entities: _id = entity.pop("_id");
     response = register_or_update(_id, entity, url)] *)
Fixpoint for_each_entity (entities : list dict) (entity_url : string)
  : M unit :=
  match entities with
  | [] => ret tt
  | entity :: entities' =>
      popped <- lift (pop entity "_id") ;;
      response <- register_or_update (format_id popped.1) popped.2
                                     entity_url ;;
      for_each_entity entities' entity_url
  end.

(** [process_journals]: [journals] is what
    [json.loads(context["ti"].xcom_pull(task_ids="read_title_mst"))]
    gives, each record wrapped as a [Journal], or the exception raised
    when the stream cannot be obtained or decoded. *)
Definition process_journals (journals : result (list Journal)) : M unit :=
  journals <- lift journals ;;
  let journals_as_kernel := map journal_as_kernel journals in
  for_each_entity journals_as_kernel KERNEL_API_JOURNAL_ENDPOINT.

Definition filter_issues (issues : list Issue) : list Issue :=
  let filters :=
    [ (fun issue => negb (String.eqb (type issue) "pressrelease"));
      (fun issue => negb (String.eqb (type issue) "ahead")) ] in
  fold_left (fun issues f => List.filter f issues) filters issues.

Definition process_issues (issues : result (list Issue)) : M unit :=
  issues <- lift issues ;;
  let issues := filter_issues issues in
  issues_as_kernel <- lift (comprehension issue_as_kernel issues) ;;
  for_each_entity issues_as_kernel KERNEL_API_BUNDLES_ENDPOINT.

(** One task run, started with an empty request log. *)
Definition start (w : World) : Net := {| world := w; sent := [] |}.

End Transport.

End KernelGate.

(* ================================================================== *)
(** ** The remote metadata store *)

Module Kernel.
Import Py KernelGate.

(** Modelled from the spec: the Kernel REST API, which is a service
    outside this repository.  [GET /{collection}/{id}] answers 200 with
    body [{"metadata": {...}}] on a hit and 404 on a miss; [PUT] with a
    full document creates the entity; [PATCH] with a partial document
    merges it into the existing entity. *)
Abbreviation store := (gmap string dict).

Definition run (r : request) (db : store) : result response * store :=
  match req_method r with
  | GET =>
      match db !! endpoint r with
      | Some m =>
          (Ok {| status_code := 200;
                 body := Some (VDict {[ "metadata" := VDict m ]}) |}, db)
      | None => (Ok {| status_code := 404; body := None |}, db)
      end
  | PUT =>
      (Ok {| status_code := 201; body := None |},
       <[endpoint r := default ∅ (data r)]> db)
  | PATCH =>
      match db !! endpoint r with
      | Some m =>
          (Ok {| status_code := 204; body := None |},
           <[endpoint r := default ∅ (data r) ∪ m]> db)
      | None => (Ok {| status_code := 404; body := None |}, db)
      end
  end.

(** A remote side that answers every request with the same status and
    no body, and one that cannot be reached at all. *)
Definition answering (status : Z) (r : request) (w : unit)
  : result response * unit :=
  (Ok {| status_code := status; body := None |}, w).

Definition unreachable (r : request) (w : unit) : result response * unit :=
  (Raise ConnectionError, w).

End Kernel.

(* ================================================================== *)
(** * Definitions used in the statements *)

Module IssueIdSpec.
Import Py KernelGate.

(** The value of a sequence of decimal digits. *)
Definition digits_value (cs : list ascii) : Z :=
  fold_left (fun acc c => 10 * acc + (code c - 48)) cs 0.

(** [k] zeros in front of [s]. *)
Fixpoint zeros (k : nat) (s : string) : string :=
  match k with
  | O => s
  | S k' => String "0" (zeros k' s)
  end.

(** What one of volume, number, supplement contributes. *)
Definition component (prefix : string) (o : option string)
  : result (list string) :=
  match o with
  | Some value =>
      if negb (String.eqb value "") then
        value ← (if isdigit value then n ← int value; Ok (str n)
                 else Ok value);
        Ok [prefix +:+ value]
      else Ok []
  | None => Ok []
  end.

(** What one of issn, year contributes. *)
Definition plain (o : option string) : list string :=
  match o with
  | Some value => if negb (String.eqb value "") then [value] else []
  | None => []
  end.

(** A component is absent, or a string on which [isdigit] and
    [isdecimal] agree: every character that passes for a digit is one of
    [0]..[9]. *)
Definition safe (o : option string) : bool :=
  match o with
  | Some value => Bool.eqb (isdigit value) (isdecimal value)
  | None => true
  end.

(** A component is absent or written in decimal digits only. *)
Definition numeric (o : option string) : bool :=
  match o with
  | Some value => isdecimal value
  | None => true
  end.

(** [k] zeros in front of a component that is present. *)
Definition pad (k : nat) (o : option string) : option string :=
  option_map (zeros k) o.

(** The normal form of a component's text: [str(int(value))] for a
    text in decimal digits, the text itself otherwise. *)
Definition normal (value : string) : string :=
  if isdecimal value
  then match int value with Ok n => str n | Raise _ => value end
  else value.

(** The part of the identity that a component gives. *)
Definition labelled (prefix : string) (o : option string) : list string :=
  match o with
  | Some value =>
      if String.eqb value "" then [] else [prefix +:+ normal value]
  | None => []
  end.

(** U+00B2, superscript two. *)
Definition superscript_two : string := String (chr 178) "".

End IssueIdSpec.

Module NormalizerSpec.
Import Py Xylose KernelGate.

Definition journal_schema : list string :=
  [ "_id"; "mission"; "title"; "title_iso"; "short_title"; "acronym";
    "scielo_issn"; "print_issn"; "electronic_issn"; "status";
    "subject_areas"; "sponsors"; "subject_categories";
    "online_submission_url"; "next_journal"; "previous_journal";
    "contact" ].

(** For each key other than ["_id"]: whether the record has the source
    field (a value that is not [None] and not empty), and the value that
    stands for its absence. *)
Definition journal_fields : list (string * (Journal -> bool) * value) :=
  [ ("mission", fun j => some_list (mission j), VList []);
    ("title", fun j => some_str (title j), VStr "");
    ("title_iso", fun j => some_str (abbreviated_iso_title j), VStr "");
    ("short_title", fun j => some_str (abbreviated_title j), VStr "");
    ("acronym", fun j => some_str (acronym j), VStr "");
    ("scielo_issn", fun j => some_str (scielo_issn j), VStr "");
    ("print_issn", fun j => some_str (print_issn j), VStr "");
    ("electronic_issn", fun j => some_str (electronic_issn j), VStr "");
    ("status", fun j => some_list (status_history j), VDict ∅);
    ("subject_areas", fun j => some_list (subject_areas j), VList []);
    ("sponsors", fun j => some_list (sponsors j), VList []);
    ("subject_categories", fun j => some_list (wos_subject_areas j),
     VList []);
    ("online_submission_url", fun j => some_str (submission_url j),
     VStr "");
    ("next_journal", fun j => some_str (next_title j), VDict ∅);
    ("previous_journal", fun j => some_str (previous_title j), VDict ∅);
    ("contact",
     fun j => some_str (editor_email j) || some_str (editor_address j),
     VDict ∅) ].

Definition issue_schema : list string :=
  [ "_id"; "volume"; "number"; "titles"; "publication_season" ].

Definition issue_fields : list (string * (Issue -> bool) * value) :=
  [ ("volume", fun i => some_str (volume i), VStr "");
    ("number", fun i => some_str (number i), VStr "");
    ("titles", fun i => some_list (titles i), VList []);
    ("publication_season",
     fun i => some_str (start_month i) && some_str (end_month i),
     VList []) ].

(** A string, a list or a mapping: never [None], a number or a flag. *)
Definition rendered (v : value) : bool :=
  match v with
  | VStr _ | VList _ | VDict _ => true
  | _ => false
  end.

(** The payload of an issue before the identity is computed. *)
Definition issue_body (issue : Issue) (season : value) : dict :=
  let p : dict :=
    <["number" := or_ (ostr (number issue)) (VStr "")]>
      (<["volume" := or_ (ostr (volume issue)) (VStr "")]> ∅) in
  let p :=
    if is_literal (type issue) "supplement"
    then <["supplement" :=
             or_ (or_ (ostr (supplement_volume issue))
                      (ostr (supplement_number issue)))
                 (VStr "0")]> p
    else p in
  let p :=
    <["titles" := if some_list (titles issue)
                  then language_values (default [] (titles issue))
                  else VList []]> p in
  <["publication_season" := season]> p.

(** An indicator that is set: present and not empty. *)
Definition indicator (o : option string) : option string :=
  if some_str o then o else None.

(** The supplement-volume indicator, else the supplement-number
    indicator, else "0". *)
Definition supplement_text (issue : Issue) : string :=
  default (default "0" (indicator (supplement_number issue)))
          (indicator (supplement_volume issue)).

(** The supplement that [issue_as_kernel] hands to [issue_id]. *)
Definition supplement_argument (issue : Issue) : option string :=
  if is_literal (type issue) "supplement"
  then Some (supplement_text issue)
  else None.

Definition example_issue : Issue :=
  {| type := "supplement"; volume := Some "01"; number := None;
     supplement_volume := None; supplement_number := None;
     titles := Some [("en", "Special supplement")];
     start_month := Some "3"; end_month := Some "01";
     publication_date := Some "2019-12";
     v35 := Some [ {[ "_" := "0001-0002" ]} ] |}.

Definition example_regular_issue : Issue :=
  {| type := "regular"; volume := Some "01"; number := Some "2";
     supplement_volume := Some "3"; supplement_number := Some "1";
     titles := None; start_month := None; end_month := None;
     publication_date := Some "2019-06-30";
     v35 := Some [ {[ "_" := "0001-0002" ]} ] |}.

(** The two months of the publication season, when both are given. *)
Definition season_of (issue : Issue) : result value :=
  if some_str (start_month issue) && some_str (end_month issue)
  then
    a ← int (default "" (start_month issue));
    b ← int (default "" (end_month issue));
    Ok (VList (map VInt (sorted_set2 a b)))
  else Ok (VList []).

(** The same record with other supplement indicators. *)
Definition with_supplement (sv sn : option string) (issue : Issue) : Issue :=
  {| type := type issue; volume := volume issue; number := number issue;
     supplement_volume := sv; supplement_number := sn;
     titles := titles issue; start_month := start_month issue;
     end_month := end_month issue;
     publication_date := publication_date issue; v35 := v35 issue |}.

Definition no_journal : Journal :=
  {| any_issn := None; scielo_issn := None; print_issn := None;
     electronic_issn := None; mission := None; title := None;
     abbreviated_iso_title := None; abbreviated_title := None;
     acronym := None; status_history := None; subject_areas := None;
     sponsors := None; wos_subject_areas := None; submission_url := None;
     next_title := None; previous_title := None; editor_email := None;
     editor_address := None |}.

Definition example_journal : Journal :=
  {| any_issn := Some "0001-0002"; scielo_issn := Some "0001-0002";
     print_issn := None; electronic_issn := Some "0001-0002";
     mission := None; title := Some "Example Journal";
     abbreviated_iso_title := None; abbreviated_title := None;
     acronym := None;
     status_history := Some [("2019", "current", None)];
     subject_areas := Some ["Linguistics, Letters and Arts"];
     sponsors := None; wos_subject_areas := None; submission_url := None;
     next_title := None; previous_title := None; editor_email := None;
     editor_address := None |}.

Definition other_journal : Journal :=
  {| any_issn := Some "0003-0004"; scielo_issn := Some "0003-0004";
     print_issn := None; electronic_issn := None;
     mission := None; title := Some "Other Journal";
     abbreviated_iso_title := None; abbreviated_title := None;
     acronym := None; status_history := None; subject_areas := None;
     sponsors := None; wos_subject_areas := None; submission_url := None;
     next_title := None; previous_title := None; editor_email := None;
     editor_address := None |}.

End NormalizerSpec.

Module DeepDiffSpec.
Import Py.

(** The size of a value, for induction through lists and dicts. *)
Fixpoint vsize (v : value) : nat :=
  match v with
  | VList l => S (list_sum (map vsize l))
  | VDict d => S (map_fold (fun _ x acc => (vsize x + acc)%nat) 0%nat d)
  | _ => 1%nat
  end.

End DeepDiffSpec.

Module ProtocolSpec.
Import Py KernelGate.

Definition probe (entity_url _id : string) : request :=
  {| req_method := GET; endpoint := entity_url +:+ _id; data := None |}.

Definition create (entity_url _id : string) (payload : dict) : request :=
  {| req_method := PUT; endpoint := entity_url +:+ _id;
     data := Some payload |}.

Definition patch (entity_url _id : string) (payload : dict) : request :=
  {| req_method := PATCH; endpoint := entity_url +:+ _id;
     data := Some payload |}.

(** A request that writes. *)
Definition is_write (r : request) : bool :=
  match req_method r with GET => false | _ => true end.

(** One turn of the loop of a batch driver. *)
Definition reconcile_entity {World : Type}
    (run : request -> World -> result response * World)
    (entity_url : string) (entity : dict) : @M World unit :=
  bind (lift (pop entity "_id")) (fun popped =>
  bind (register_or_update run (format_id popped.1) popped.2 entity_url)
       (fun _ => ret tt)).

End ProtocolSpec.

Module KernelSpec.
Import Py Xylose KernelGate ProtocolSpec.

(** What the store answers to a probe that hits. *)
Definition found (m : dict) : response :=
  {| status_code := 200;
     body := Some (VDict {[ "metadata" := VDict m ]}) |}.

Definition not_found : response := {| status_code := 404; body := None |}.

Definition remote_journal : dict :=
  {[ "title" := VStr "A"; "acronym" := VStr "X" ]}.

Definition local_journal : dict :=
  {[ "title" := VStr "A"; "acronym" := VStr "" ]}.

Definition one_journal : Kernel.store :=
  {[ "/journals/0001-0002" := remote_journal ]}.

Definition payload_with_none : dict :=
  {[ "title" := VStr "A"; "acronym" := VNone ]}.

End KernelSpec.

Module BatchSpec.
Import Py Xylose KernelGate NormalizerSpec.

Definition bad_date_issue : Issue :=
  {| type := "regular"; volume := Some "1"; number := Some "1";
     supplement_volume := None; supplement_number := None;
     titles := None; start_month := None; end_month := None;
     publication_date := Some "2019-13";
     v35 := Some [ {[ "_" := "0001-0002" ]} ] |}.

End BatchSpec.

Module ExtraSpec.
Import Py Xylose KernelGate ProtocolSpec.

(** An issue that [filter_issues] lets through. *)
Definition publishable (issue : Issue) : bool :=
  negb (String.eqb (type issue) "pressrelease")
  && negb (String.eqb (type issue) "ahead").

(** The same record with another publication date. *)
Definition with_publication_date (date : option string) (issue : Issue)
  : Issue :=
  {| type := type issue; volume := volume issue; number := number issue;
     supplement_volume := supplement_volume issue;
     supplement_number := supplement_number issue;
     titles := titles issue; start_month := start_month issue;
     end_month := end_month issue;
     publication_date := date; v35 := v35 issue |}.

(** The same record with another status history. *)
Definition with_status_history
    (history : option (list (string * string * option string)))
    (journal : Journal) : Journal :=
  {| any_issn := any_issn journal; scielo_issn := scielo_issn journal;
     print_issn := print_issn journal;
     electronic_issn := electronic_issn journal;
     mission := mission journal; title := title journal;
     abbreviated_iso_title := abbreviated_iso_title journal;
     abbreviated_title := abbreviated_title journal;
     acronym := acronym journal; status_history := history;
     subject_areas := subject_areas journal; sponsors := sponsors journal;
     wos_subject_areas := wos_subject_areas journal;
     submission_url := submission_url journal;
     next_title := next_title journal;
     previous_title := previous_title journal;
     editor_email := editor_email journal;
     editor_address := editor_address journal |}.

(** The probe of a request log. *)
Definition is_probe (r : request) : bool :=
  match req_method r with GET => true | _ => false end.

(** A request to a resource of the collection [entity_url] whose body,
    if it has one, has no ["_id"]. *)
Definition well_addressed (entity_url : string) (r : request) : Prop :=
  String.prefix entity_url (endpoint r) = true
  /\ forall body, data r = Some body -> body !! "_id" = None.

(** The resource a batch driver addresses for an entity. *)
Definition entity_endpoint (entity_url : string) (entity : dict) : string :=
  entity_url +:+ format_id (get entity "_id").

(** A remote side that answers every request with the same response. *)
Definition answering_with (response : response) (r : request) (w : unit)
  : result KernelGate.response * unit :=
  (Ok response, w).

(** A 200 response whose metadata is a list. *)
Definition list_metadata : response :=
  {| status_code := 200;
     body := Some (VDict {[ "metadata" := VList [] ]}) |}.

(** A payload with the title only. *)
Definition title_only : dict := {[ "title" := VStr "A" ]}.

(** A press release without field 35 and without publication date. *)
Definition press_release : Issue :=
  {| type := "pressrelease"; volume := None; number := None;
     supplement_volume := None; supplement_number := None;
     titles := None; start_month := None; end_month := None;
     publication_date := None; v35 := None |}.

End ExtraSpec.

(* ================================================================== *)
(** * Properties *)

(** ** Facts about strings and integers *)

Module PyFacts.
Import Py IssueIdSpec.

Lemma eqb_empty_chars s :
  String.eqb s "" = match chars s with [] => true | _ => false end.
Proof. by destruct s. Qed.

Lemma is_decimal_not_space c : is_decimal c = true -> is_space c = false.
Proof. unfold is_decimal, is_space. lia. Qed.

Lemma is_decimal_is_digit c : is_decimal c = true -> is_digit_char c = true.
Proof. unfold is_digit_char. by intros ->. Qed.

Lemma lstrip_decimal cs :
  match cs with c :: _ => is_decimal c = true | [] => True end ->
  lstrip cs = cs.
Proof.
  destruct cs as [|c cs]; simpl; [done|].
  intros H. by rewrite (is_decimal_not_space _ H).
Qed.

Lemma strip_decimal cs : forallb is_decimal cs = true -> strip cs = cs.
Proof.
  intros H. unfold strip.
  rewrite (lstrip_decimal cs).
  2:{ destruct cs; simpl in *; [done|]. by apply andb_prop in H as [? _]. }
  rewrite lstrip_decimal; [apply rev_involutive|].
  assert (Hr : forallb is_decimal (rev cs) = true).
  { rewrite forallb_forall in *. intros x Hx. apply H. by apply in_rev. }
  destruct (rev cs); simpl in *; [done|]. by apply andb_prop in Hr as [? _].
Qed.

Lemma int_digits_decimal cs acc seen :
  forallb is_decimal cs = true -> (cs <> [] \/ seen = true) ->
  int_digits cs acc seen
  = Some (fold_left (fun acc c => 10 * acc + (code c - 48)) cs acc).
Proof.
  revert acc seen. induction cs as [|c cs IH]; intros acc seen H Hne; simpl.
  - destruct Hne as [? | ->]; done.
  - simpl in H. apply andb_prop in H as [Hc H]. rewrite Hc.
    apply IH; auto.
Qed.

(** [int] on a string of decimal digits. *)
Lemma int_decimal s :
  isdecimal s = true -> int s = Ok (digits_value (chars s)).
Proof.
  unfold isdecimal, int. destruct (chars s) as [|c cs] eqn:E; [done|].
  intros H. rewrite strip_decimal by done.
  pose proof H as H'. simpl in H'. apply andb_prop in H' as [Hc _].
  assert ((code c =? 45) = false) as -> by (unfold is_decimal in Hc; lia).
  assert ((code c =? 43) = false) as -> by (unfold is_decimal in Hc; lia).
  rewrite int_digits_decimal; auto.
Qed.

Lemma isdecimal_isdigit s : isdecimal s = true -> isdigit s = true.
Proof.
  unfold isdecimal, isdigit. destruct (chars s) as [|c cs]; [done|].
  rewrite !forallb_forall. intros H x Hx. apply is_decimal_is_digit. auto.
Qed.

Lemma isdecimal_forallb s :
  isdecimal s = true <-> chars s <> [] /\ forallb is_decimal (chars s) = true.
Proof. unfold isdecimal. destruct (chars s); simpl; intuition congruence. Qed.

Lemma isdecimal_zeros k s : isdecimal s = true -> isdecimal (zeros k s) = true.
Proof.
  intros H. induction k as [|k IH]; [done|].
  apply isdecimal_forallb in IH as [_ IH].
  apply isdecimal_forallb. unfold chars in *. simpl. rewrite IH. done.
Qed.

Lemma digits_value_zeros k s :
  digits_value (chars (zeros k s)) = digits_value (chars s).
Proof.
  induction k as [|k IH]; [done|].
  unfold digits_value, chars in *. simpl. exact IH.
Qed.

(** Leading zeros disappear in the integer round trip. *)
Lemma int_zeros k s :
  isdecimal s = true -> int (zeros k s) = int s.
Proof.
  intros H. rewrite !int_decimal by auto using isdecimal_zeros.
  by rewrite digits_value_zeros.
Qed.

Lemma isdecimal_nonempty s : isdecimal s = true -> String.eqb s "" = false.
Proof. unfold isdecimal. rewrite eqb_empty_chars. by destruct (chars s). Qed.

End PyFacts.

(* ================================================================== *)
(** ** The bundle identity *)

Module IssueIdFacts.
Import Py KernelGate IssueIdSpec PyFacts.

Lemma append_component_eq data _id label prefix :
  append_component data _id (label, prefix)
  = (c ← component prefix (mjoin (data !! label)); Ok (_id ++ c)%list).
Proof.
  unfold append_component, component.
  destruct (mjoin (data !! label)) as [value|]; simpl;
    [|by rewrite app_nil_r].
  destruct (String.eqb value ""); simpl; [by rewrite app_nil_r|].
  destruct (isdigit value); simpl; [|done].
  destruct (int value); done.
Qed.

Lemma bind_Ok {A B} (a : A) (f : A -> result B) : (Ok a ≫= f) = f a.
Proof. done. Qed.

Lemma bind_Raise {A B} (e : exn) (f : A -> result B) :
  (Raise e ≫= f) = Raise e.
Proof. done. Qed.

Lemma issue_id_parts_eq issn_id year volume number supplement :
  issue_id_parts issn_id year volume number supplement
  = (v ← component "v" volume;
     n ← component "n" number;
     s ← component "s" supplement;
     Ok (plain issn_id ++ plain year ++ v ++ n ++ s)%list).
Proof.
  unfold issue_id_parts.
  set (data := list_to_map _).
  assert (mjoin (data !! "issn_id") = issn_id) as Hi by reflexivity.
  assert (mjoin (data !! "year") = year) as Hy by reflexivity.
  assert (mjoin (data !! "volume") = volume) as Hv by reflexivity.
  assert (mjoin (data !! "number") = number) as Hn by reflexivity.
  assert (mjoin (data !! "supplement") = supplement) as Hs by reflexivity.
  set (_id := fold_left _ _ _).
  assert (_id = (plain issn_id ++ plain year)%list) as ->.
  { subst _id. unfold fold_left. rewrite Hi, Hy. unfold plain.
    destruct issn_id as [i|], year as [y|]; try done;
      try destruct (negb (String.eqb i "")); try done;
      try destruct (negb (String.eqb y "")); done. }
  clearbody data. cbn [for_components].
  rewrite append_component_eq, Hv.
  destruct (component "v" volume) as [v|]; [|done]. rewrite !bind_Ok.
  rewrite append_component_eq, Hn.
  destruct (component "n" number) as [n|]; [|done]. rewrite !bind_Ok.
  rewrite append_component_eq, Hs.
  destruct (component "s" supplement) as [s|]; [|done]. rewrite !bind_Ok.
  by rewrite <- !app_assoc.
Qed.

End IssueIdFacts.

Module IssueIdProofs.
Import Py KernelGate PyFacts IssueIdFacts IssueIdSpec.

Lemma component_safe prefix o :
  safe o = true -> component prefix o = Ok (labelled prefix o).
Proof.
  destruct o as [value|]; [|done]. unfold safe, component, labelled, normal.
  destruct (String.eqb value ""); [done|]. simpl negb. cbv iota.
  destruct (isdecimal value) eqn:Hd.
  - intros _. rewrite (isdecimal_isdigit _ Hd), (int_decimal _ Hd). done.
  - destruct (isdigit value); [done|]. done.
Qed.

Lemma numeric_safe o : numeric o = true -> safe o = true.
Proof.
  destruct o as [value|]; [|done]. unfold numeric, safe. intros H.
  by rewrite H, (isdecimal_isdigit _ H).
Qed.

Lemma numeric_pad k o : numeric o = true -> numeric (pad k o) = true.
Proof. destruct o; [apply isdecimal_zeros | done]. Qed.

Lemma labelled_pad prefix k o :
  numeric o = true -> labelled prefix (pad k o) = labelled prefix o.
Proof.
  destruct o as [value|]; [|done]. unfold numeric, pad, labelled. simpl.
  intros H. rewrite !isdecimal_nonempty by auto using isdecimal_zeros.
  unfold normal. rewrite H, isdecimal_zeros by done.
  by rewrite int_zeros, int_decimal by done.
Qed.

(** The identity, when no component trips [int]. *)
Lemma issue_id_safe issn_id year volume number supplement :
  safe volume = true -> safe number = true -> safe supplement = true ->
  issue_id issn_id year volume number supplement
  = Ok (join "-" (plain issn_id ++ plain year ++ labelled "v" volume
                    ++ labelled "n" number ++ labelled "s" supplement)).
Proof.
  intros Hv Hn Hs. unfold issue_id.
  rewrite issue_id_parts_eq, !component_safe by done. done.
Qed.

(** C4: leading zeros never change the bundle identity: for components
    written in decimal digits, any number of zeros in front of volume,
    number or supplement gives the same identity; the identity is the
    "-"-join, in the fixed order issn, year, v<volume>, n<number>,
    s<supplement>, of the components that are present, each numeric one
    after its integer round trip; in particular volume "01" with number
    "2" and volume "1" with number "02" both give "{issn}-{year}-v1-n2"
    for a non-empty issn and year. *)
Theorem issue_id_leading_zeros
    (issn_id year volume number supplement : option string)
    (kv kn ks : nat) :
  numeric volume = true -> numeric number = true ->
  numeric supplement = true ->
  issue_id issn_id year (pad kv volume) (pad kn number) (pad ks supplement)
  = issue_id issn_id year volume number supplement
  /\ issue_id issn_id year volume number supplement
     = Ok (join "-" (plain issn_id ++ plain year ++ labelled "v" volume
                       ++ labelled "n" number ++ labelled "s" supplement))
  /\ issue_id issn_id year (Some "01") (Some "2") None
     = issue_id issn_id year (Some "1") (Some "02") None
  /\ (forall issn y : string,
        issn_id = Some issn -> year = Some y -> issn <> "" -> y <> "" ->
        issue_id issn_id year (Some "01") (Some "2") None
        = Ok (issn +:+ "-" +:+ y +:+ "-v1-n2")).
Proof.
  intros Hv Hn Hs. split; [|split; [|split]].
  - rewrite !issue_id_safe by auto using numeric_safe, numeric_pad.
    by rewrite !labelled_pad.
  - by apply issue_id_safe; apply numeric_safe.
  - by rewrite !issue_id_safe.
  - intros issn y -> -> Hi Hy. rewrite issue_id_safe by done.
    unfold plain. apply String.eqb_neq in Hi, Hy. rewrite Hi, Hy. done.
Qed.

Lemma issue_id_leading_zeros_witness :
  issue_id (Some "0001-0002") (Some "2019")
           (pad 2 (Some "7")) (pad 1 (Some "3")) (pad 0 None)
  = issue_id (Some "0001-0002") (Some "2019") (Some "7") (Some "3") None
  /\ issue_id (Some "0001-0002") (Some "2019")
              (Some "01") (Some "2") None
     = Ok "0001-0002-2019-v1-n2".
Proof.
  destruct (issue_id_leading_zeros (Some "0001-0002") (Some "2019")
              (Some "7") (Some "3") None 2 1 0) as (H1 & _ & _ & H4);
    [reflexivity | reflexivity | reflexivity |].
  split; [exact H1|].
  apply (H4 "0001-0002" "2019"); [reflexivity | reflexivity | | ]; discriminate.
Defined.

(** C10: [issue_id] is not total on string-or-absent arguments: the
    superscript two passes [isdigit], and [int] rejects it, so a volume
    made of that character makes [issue_id] raise [ValueError] whatever
    the other arguments are. *)
Theorem issue_id_raises_on_superscript_digit
    (issn_id year number supplement : option string) :
  issue_id issn_id year (Some superscript_two) number supplement
  = Raise ValueError.
Proof. unfold issue_id. rewrite issue_id_parts_eq. reflexivity. Qed.

End IssueIdProofs.


Module NormalizerProofs.
Import Py Xylose KernelGate NormalizerSpec.

Lemma journal_dom journal :
  dom (journal_as_kernel journal) = list_to_set journal_schema.
Proof.
  unfold journal_as_kernel.
  destruct (some_list (mission journal));
    rewrite !dom_insert_L, dom_empty_L; unfold journal_schema; simpl;
    set_solver.
Qed.

Lemma or_absent o d : some_str o = false -> or_ (ostr o) d = d.
Proof. unfold some_str, or_. by intros ->. Qed.

Lemma or_rendered o s : rendered (or_ (ostr o) (VStr s)) = true.
Proof. unfold or_. destruct o; simpl; [|done]. by case_match. Qed.

Lemma some_list_last {A} (o : option (list A)) :
  some_list o = false -> last (default [] o) = None.
Proof. by destruct o as [[|]|]. Qed.

Lemma journal_absent_field journal key present empty :
  In (key, present, empty) journal_fields ->
  present journal = false ->
  journal_as_kernel journal !! key = Some empty.
Proof.
  intros Hin Hp. unfold journal_as_kernel.
  simpl in Hin.
  repeat (destruct Hin as [Hin|Hin];
          [injection Hin as <- <- <-;
           try apply orb_false_elim in Hp as [Hp1 Hp2];
           try rewrite Hp; try rewrite Hp1; try rewrite Hp2;
           try rewrite (some_list_last _ Hp);
           try rewrite (or_absent _ _ Hp);
           try destruct (some_list (mission journal));
           by simplify_map_eq|]).
  done.
Qed.

Lemma journal_rendered journal k v :
  k <> "_id" -> journal_as_kernel journal !! k = Some v -> rendered v = true.
Proof.
  intros Hk. unfold journal_as_kernel.
  destruct (some_list (mission journal));
  repeat (rewrite lookup_insert; case_decide;
          [ first [ congruence
                  | intros [= <-]; rewrite ?or_rendered;
                    repeat case_match; done ] |]).
  all: by rewrite ?lookup_empty.
Qed.

Lemma supplement_value issue :
  or_ (or_ (ostr (supplement_volume issue)) (ostr (supplement_number issue)))
      (VStr "0")
  = VStr (supplement_text issue).
Proof.
  unfold supplement_text, indicator, or_, some_str.
  destruct (supplement_volume issue) as [sv|],
           (supplement_number issue) as [sn|]; simpl;
    repeat case_match; simplify_eq/=; try done; congruence.
Qed.

(** [issue_as_kernel], stage by stage. *)
Lemma issue_as_kernel_eq issue :
  issue_as_kernel issue
  = (season ← season_of issue;
     issn_id ← v35_issn issue;
     _creation_date ← parse_date (publication_date issue);
     _id ← issue_id (Some issn_id)
                    (Some (str (Datetime.year _creation_date)))
                    (volume issue) (number issue)
                    (supplement_argument issue);
     Ok (<["_id" := VStr _id]> (issue_body issue season))).
Proof.
  unfold issue_as_kernel, season_of, issue_body, supplement_argument.
  rewrite supplement_value.
  destruct (some_str (start_month issue) && some_str (end_month issue)).
  - destruct (int (default "" (start_month issue))) as [a|]; [|done].
    destruct (int (default "" (end_month issue))) as [b|]; [|done].
    simpl.
    destruct (v35_issn issue) as [issn|]; [|done]. simpl.
    destruct (parse_date (publication_date issue)) as [dt|]; [|done]. simpl.
    destruct (is_literal (type issue) "supplement"),
             (some_list (titles issue)); done.
  - simpl.
    destruct (v35_issn issue) as [issn|]; [|done]. simpl.
    destruct (parse_date (publication_date issue)) as [dt|]; [|done]. simpl.
    destruct (is_literal (type issue) "supplement"),
             (some_list (titles issue)); done.
Qed.

Lemma issue_as_kernel_inv issue payload :
  issue_as_kernel issue = Ok payload ->
  exists season issn_id _creation_date _id,
    season_of issue = Ok season
    /\ v35_issn issue = Ok issn_id
    /\ parse_date (publication_date issue) = Ok _creation_date
    /\ issue_id (Some issn_id) (Some (str (Datetime.year _creation_date)))
                (volume issue) (number issue) (supplement_argument issue)
       = Ok _id
    /\ payload = <["_id" := VStr _id]> (issue_body issue season).
Proof.
  rewrite issue_as_kernel_eq.
  destruct (season_of issue) as [season|]; [|done].
  destruct (v35_issn issue) as [issn|]; [|done].
  destruct (parse_date (publication_date issue)) as [dt|]; [|done].
  simpl.
  destruct (issue_id _ _ _ _ _) as [_id|] eqn:E; [|done].
  intros [= <-]. by exists season, issn, dt, _id.
Qed.

Lemma is_literal_spec a b : is_literal a b = true <-> a = b.
Proof. apply String.eqb_eq. Qed.

Lemma issue_body_supplement issue season :
  issue_body issue season !! "supplement"
  = if is_literal (type issue) "supplement"
    then Some (VStr (supplement_text issue)) else None.
Proof.
  unfold issue_body. rewrite supplement_value.
  destruct (is_literal (type issue) "supplement"); by simplify_map_eq.
Qed.

(** C5: the normalized issue payload has the key ["supplement"] exactly
    when the record's type tag is "supplement"; its value is then the
    supplement-volume indicator, else the supplement-number indicator,
    else the string "0"; for any other type the key is absent, whatever
    the supplement indicators of the record are. *)
Theorem supplement_gating (issue : Issue) (payload : dict) :
  issue_as_kernel issue = Ok payload ->
  (is_Some (payload !! "supplement") <-> type issue = "supplement")
  /\ (type issue = "supplement" ->
      payload !! "supplement" = Some (VStr (supplement_text issue)))
  /\ (type issue <> "supplement" -> payload !! "supplement" = None).
Proof.
  intros (season & issn & dt & _id & _ & _ & _ & _ & ->)%issue_as_kernel_inv.
  rewrite lookup_insert_ne by done. rewrite issue_body_supplement.
  destruct (is_literal (type issue) "supplement") eqn:E.
  - apply is_literal_spec in E. split; [|split]; [|done|done].
    split; [done | by eexists].
  - assert (type issue <> "supplement") as Hne.
    { intros H%is_literal_spec. congruence. }
    split; [|split]; [|done|done].
    split; [by intros [? ?] | done].
Qed.

Lemma supplement_gating_witness :
  (<["_id" := VStr "0001-0002-2019-v1-s0"]>
     (issue_body example_issue (VList [VInt 1; VInt 3])) : dict)
    !! "supplement" = Some (VStr "0").
Proof.
  apply (supplement_gating example_issue); reflexivity.
Defined.

End NormalizerProofs.

Module IssueProofs.
Import Py Xylose KernelGate IssueIdSpec PyFacts IssueIdFacts NormalizerSpec
  NormalizerProofs.

Lemma component_prefix prefix o c :
  component prefix o = Ok c ->
  Forall (fun part => exists text, part = prefix +:+ text) c.
Proof.
  unfold component. destruct o as [value|]; [|by intros [= <-]].
  destruct (negb (String.eqb value "")); [|by intros [= <-]].
  destruct (isdigit value).
  - destruct (int value) as [n|]; [|done]. intros [= <-].
    constructor; [by eexists | done].
  - intros [= <-]. constructor; [by eexists | done].
Qed.

Lemma supplement_argument_regular issue :
  type issue <> "supplement" -> supplement_argument issue = None.
Proof.
  intros H. unfold supplement_argument.
  destruct (is_literal (type issue) "supplement") eqn:E; [|done].
  by apply is_literal_spec in E.
Qed.

Lemma issue_as_kernel_with_supplement sv sn issue :
  type issue <> "supplement" ->
  issue_as_kernel (with_supplement sv sn issue) = issue_as_kernel issue.
Proof.
  intros H. rewrite !issue_as_kernel_eq.
  rewrite !supplement_argument_regular by done.
  unfold issue_body, season_of. simpl.
  destruct (is_literal (type issue) "supplement") eqn:E; [|done].
  by apply is_literal_spec in E.
Qed.

(** C9: for an issue whose type tag is not "supplement", the bundle
    identity is the "-"-join of the issn, the year, and the components
    of volume and number only, which are labelled "v" and "n": nothing
    comes from the supplement indicators of the record, and setting them
    to any other values leaves the whole normalized payload, identity
    included, as it is. *)
Theorem regular_issue_id_has_no_supplement (issue : Issue) (payload : dict) :
  type issue <> "supplement" ->
  issue_as_kernel issue = Ok payload ->
  (exists issn_id _creation_date v n,
      v35_issn issue = Ok issn_id
      /\ parse_date (publication_date issue) = Ok _creation_date
      /\ component "v" (volume issue) = Ok v
      /\ component "n" (number issue) = Ok n
      /\ Forall (fun part => exists text, part = "v" +:+ text) v
      /\ Forall (fun part => exists text, part = "n" +:+ text) n
      /\ payload !! "_id"
         = Some (VStr (join "-"
                         (plain (Some issn_id)
                          ++ plain (Some (str (Datetime.year _creation_date)))
                          ++ v ++ n)))
      /\ issue_id (Some issn_id) (Some (str (Datetime.year _creation_date)))
                  (volume issue) (number issue) None
         = Ok (join "-"
                 (plain (Some issn_id)
                  ++ plain (Some (str (Datetime.year _creation_date)))
                  ++ v ++ n)))
  /\ (forall sv sn,
        issue_as_kernel (with_supplement sv sn issue) = Ok payload).
Proof.
  intros Hty H. split.
  - apply issue_as_kernel_inv in H
      as (season & issn & dt & _id & _ & Hissn & Hdt & Hid & ->).
    rewrite supplement_argument_regular in Hid by done.
    pose proof Hid as Hid'.
    unfold issue_id in Hid. rewrite issue_id_parts_eq in Hid.
    destruct (component "v" (volume issue)) as [v|] eqn:Hv; [|done].
    destruct (component "n" (number issue)) as [n|] eqn:Hn; [|done].
    simpl in Hid. injection Hid as <-.
    exists issn, dt, v, n.
    rewrite lookup_insert_eq, app_nil_r in *.
    eauto 10 using component_prefix.
  - intros sv sn. by rewrite issue_as_kernel_with_supplement.
Qed.

Lemma regular_issue_id_has_no_supplement_witness :
  (<["_id" := VStr "0001-0002-2019-v1-n2"]>
     (issue_body example_regular_issue (VList [])) : dict) !! "supplement"
  = None
  /\ issue_as_kernel
       (with_supplement (Some "9") None example_regular_issue)
     = Ok (<["_id" := VStr "0001-0002-2019-v1-n2"]>
             (issue_body example_regular_issue (VList []))).
Proof.
  split; [reflexivity|].
  apply (regular_issue_id_has_no_supplement example_regular_issue).
  - discriminate.
  - reflexivity.
Defined.

Lemma issue_body_dom issue season :
  dom (issue_body issue season)
  = list_to_set ["volume"; "number"; "titles"; "publication_season"]
    ∪ (if is_literal (type issue) "supplement"
       then {["supplement"]} else ∅).
Proof.
  unfold issue_body.
  destruct (is_literal (type issue) "supplement");
    rewrite !dom_insert_L, dom_empty_L; simpl; set_solver.
Qed.

Lemma season_absent issue :
  some_str (start_month issue) && some_str (end_month issue) = false ->
  season_of issue = Ok (VList []).
Proof. unfold season_of. by intros ->. Qed.

Lemma issue_absent_field issue season key present empty :
  In (key, present, empty) issue_fields ->
  present issue = false ->
  season_of issue = Ok season ->
  issue_body issue season !! key = Some empty.
Proof.
  intros Hin Hp Hs. unfold issue_body. simpl in Hin.
  destruct Hin as [Hin|[Hin|[Hin|[Hin|[]]]]]; injection Hin as <- <- <-.
  - rewrite (or_absent _ _ Hp).
    destruct (is_literal (type issue) "supplement"); by simplify_map_eq.
  - rewrite (or_absent _ _ Hp).
    destruct (is_literal (type issue) "supplement"); by simplify_map_eq.
  - rewrite Hp.
    destruct (is_literal (type issue) "supplement"); by simplify_map_eq.
  - rewrite season_absent in Hs by done. injection Hs as <-.
    by simplify_map_eq.
Qed.

Lemma issue_body_rendered issue season k v :
  season_of issue = Ok season ->
  issue_body issue season !! k = Some v -> rendered v = true.
Proof.
  intros Hs. unfold issue_body.
  assert (rendered season = true) as Hr.
  { unfold season_of in Hs.
    destruct (some_str (start_month issue) && some_str (end_month issue));
      [|by injection Hs as <-].
    destruct (int (default "" (start_month issue))); [|done].
    destruct (int (default "" (end_month issue))); [|done].
    by injection Hs as <-. }
  rewrite supplement_value.
  destruct (is_literal (type issue) "supplement");
  repeat (rewrite lookup_insert; case_decide;
          [ intros [= <-]; rewrite ?or_rendered; repeat case_match; done |]);
  by rewrite ?lookup_empty.
Qed.

Lemma journal_id journal :
  journal_as_kernel journal !! "_id"
  = Some (ostr (if some_str (any_issn journal)
                then any_issn journal else scielo_issn journal)).
Proof.
  unfold journal_as_kernel, some_str.
  destruct (some_list (mission journal));
    simplify_map_eq; by destruct (truthy (ostr (any_issn journal))).
Qed.

(** C8, as the code has it: a normalized journal payload has exactly the
    seventeen keys of the schema, for every record; each key other than
    ["_id"] holds a string, a list or a mapping, and holds the empty
    string, the empty list or the empty mapping when the record lacks
    the source field; ["_id"] holds the record's any-ISSN, else its
    SciELO ISSN, and so holds [None] when the record has neither.  A
    normalized issue payload has the keys ["_id"], ["volume"],
    ["number"], ["titles"] and ["publication_season"], each holding a
    string, a list or a mapping, with the same rendering of absent
    fields, and no other key except ["supplement"], which it has only
    for a supplement. *)
Theorem payload_keys_always_present :
  (forall journal : Journal,
      dom (journal_as_kernel journal) = list_to_set journal_schema
      /\ (forall k v, k <> "_id" ->
            journal_as_kernel journal !! k = Some v -> rendered v = true)
      /\ (forall key present empty,
            In (key, present, empty) journal_fields ->
            present journal = false ->
            journal_as_kernel journal !! key = Some empty)
      /\ journal_as_kernel journal !! "_id"
         = Some (ostr (if some_str (any_issn journal)
                       then any_issn journal else scielo_issn journal)))
  /\ (forall (issue : Issue) (payload : dict),
        issue_as_kernel issue = Ok payload ->
        dom payload
        = list_to_set issue_schema
          ∪ (if is_literal (type issue) "supplement"
             then {["supplement"]} else ∅)
        /\ (forall k v, payload !! k = Some v -> rendered v = true)
        /\ (forall key present empty,
              In (key, present, empty) issue_fields ->
              present issue = false ->
              payload !! key = Some empty)).
Proof.
  split.
  - intros journal.
    split; [apply journal_dom|].
    split; [apply journal_rendered|].
    split; [apply journal_absent_field | apply journal_id].
  - intros issue payload
      (season & issn & dt & _id & Hs & _ & _ & _ & ->)%issue_as_kernel_inv.
    split; [|split].
    + rewrite dom_insert_L, issue_body_dom. unfold issue_schema. simpl.
      destruct (is_literal (type issue) "supplement"); set_solver.
    + intros k v. rewrite lookup_insert. case_decide; [by intros [= <-]|].
      by apply issue_body_rendered.
    + intros key present empty Hin Hp.
      rewrite lookup_insert_ne.
      * by eapply issue_absent_field.
      * simpl in Hin. intros <-.
        by destruct Hin as [Hin|[Hin|[Hin|[Hin|[]]]]].
Qed.

(** [issue_as_kernel] returns a payload whenever its stages do. *)
Lemma issue_as_kernel_returns issue season issn_id _creation_date :
  season_of issue = Ok season ->
  v35_issn issue = Ok issn_id ->
  parse_date (publication_date issue) = Ok _creation_date ->
  safe (volume issue) = true -> safe (number issue) = true ->
  safe (supplement_argument issue) = true ->
  exists payload, issue_as_kernel issue = Ok payload.
Proof.
  intros Hs Hi Hd Hv Hn Hsup.
  rewrite issue_as_kernel_eq, Hs, Hi, Hd. simpl.
  rewrite IssueIdProofs.issue_id_safe by done. by eexists.
Qed.

Lemma rendered_not_None v : rendered v = true -> v <> VNone.
Proof. by intros H ->. Qed.

(** What the drivers hand to [register_or_update] holds no [None]. *)
Lemma journal_entity_has_no_None journal k :
  delete "_id" (journal_as_kernel journal) !! k <> Some VNone.
Proof.
  rewrite lookup_delete. case_decide as Hk; [done|].
  intros Hv. apply journal_rendered in Hv; [done|]. by intros ->.
Qed.

Lemma issue_entity_has_no_None issue payload k :
  issue_as_kernel issue = Ok payload ->
  delete "_id" payload !! k <> Some VNone.
Proof.
  intros (season & issn & dt & _id & Hs & _ & _ & _ & ->)%issue_as_kernel_inv.
  rewrite lookup_delete. case_decide as Hk; [done|].
  rewrite lookup_insert_ne by done.
  intros Hv. by apply (issue_body_rendered _ _ _ _ Hs) in Hv.
Qed.

(** A journal record without any ISSN: its ["_id"] is [None], which is
    none of the three empty values. *)
Lemma journal_without_issn_has_None_id :
  journal_as_kernel no_journal !! "_id" = Some VNone
  /\ rendered VNone = false
  /\ ~ (journal_as_kernel no_journal !! "_id" = Some (VStr "")
        \/ journal_as_kernel no_journal !! "_id" = Some (VList [])
        \/ journal_as_kernel no_journal !! "_id" = Some (VDict ∅)).
Proof.
  assert (journal_as_kernel no_journal !! "_id" = Some VNone) as H
    by (vm_compute; reflexivity).
  split; [exact H|]. split; [reflexivity|].
  rewrite H. by intros [?|[?|?]].
Qed.

Lemma payload_keys_always_present_witness :
  journal_as_kernel no_journal !! "mission" = Some (VList [])
  /\ (<["_id" := VStr "0001-0002-2019-v1-n2"]>
        (issue_body example_regular_issue (VList [])) : dict) !! "titles"
     = Some (VList []).
Proof.
  destruct payload_keys_always_present as [HJ HI]. split.
  - destruct (HJ no_journal) as (_ & _ & H & _).
    apply (H "mission" (fun j => some_list (mission j)) (VList []));
      [left; reflexivity | reflexivity].
  - destruct (HI example_regular_issue
                (<["_id" := VStr "0001-0002-2019-v1-n2"]>
                   (issue_body example_regular_issue (VList []))))
      as (_ & _ & H); [reflexivity|].
    apply (H "titles" (fun i => some_list (titles i)) (VList []));
      [right; right; left; reflexivity | reflexivity].
Defined.

End IssueProofs.

Module DeepDiffFacts.
Import Py DeepDiff DeepDiffSpec.

Lemma map_fold_and {A} (g : string -> A -> bool) (d : gmap string A) :
  map_fold (fun k x acc => acc && g k x) true d = true
  <-> forall k x, d !! k = Some x -> g k x = true.
Proof.
  apply (map_fold_weak_ind
           (fun r m =>
              r = true <-> forall k x, m !! k = Some x -> g k x = true)).
  - split; [|done]. intros _ k x. by rewrite lookup_empty.
  - intros i x m r Hi IH. rewrite andb_true_iff, IH. split.
    + intros [Hm Hx] k y. rewrite lookup_insert. case_decide.
      * intros [= <-]. by subst.
      * apply Hm.
    + intros H. split.
      * intros k y Hk. apply H. rewrite lookup_insert_ne; [done|].
        intros <-. congruence.
      * apply H. by rewrite lookup_insert_eq.
Qed.

Lemma vsize_lookup (d : dict) k x :
  d !! k = Some x -> (vsize x < vsize (VDict d))%nat.
Proof.
  intros Hk. simpl.
  rewrite <- (insert_delete_id d k x Hk).
  rewrite map_fold_insert_L.
  - lia.
  - intros. lia.
  - by rewrite lookup_delete_eq.
Qed.

Lemma vsize_elem (l : list value) x :
  In x l -> (vsize x < vsize (VList l))%nat.
Proof.
  simpl. induction l as [|y l IH]; [done|].
  intros [->|H]; simpl; [lia|]. apply IH in H. lia.
Qed.

Lemma equal_unordered_dict (a b : dict) :
  equal_unordered (VDict a) (VDict b) = true
  <-> dom a = dom b
      /\ forall k x, a !! k = Some x ->
           exists y, b !! k = Some y /\ equal_unordered x y = true.
Proof.
  simpl. rewrite andb_true_iff, bool_decide_eq_true, map_fold_and.
  split; intros [H1 H2].
  - split; [done|]. intros k x Hk.
    specialize (H1 k x Hk). destruct (b !! k) as [y|]; [|done]. eauto.
  - split; [|done]. intros k x Hk.
    destruct (H2 k x Hk) as (y & -> & ?). done.
Qed.

Lemma equal_unordered_refl v : equal_unordered v v = true.
Proof.
  induction v as [v IH] using (induction_ltof1 _ vsize). unfold ltof in IH.
  destruct v as [| b | z | s | l | d]; simpl; try done.
  - by destruct b.
  - apply Z.eqb_refl.
  - apply String.eqb_refl.
  - assert (forallb (fun x => existsb (fun y => equal_unordered x y) l) l
            = true) as H1.
    { apply forallb_forall. intros x Hx. apply existsb_exists.
      exists x. split; [done|]. apply IH. by apply vsize_elem. }
    assert (forallb (fun y => existsb (fun x => equal_unordered x y) l) l
            = true) as H2.
    { apply forallb_forall. intros x Hx. apply existsb_exists.
      exists x. split; [done|]. apply IH. by apply vsize_elem. }
    by rewrite H1, H2.
  - apply equal_unordered_dict. split; [done|].
    intros k x Hk. exists x. split; [done|].
    apply IH. by eapply vsize_lookup.
Qed.

Lemma size_dom_eq (a b : dict) : dom a = dom b -> size a = size b.
Proof. intros H. by rewrite <- !size_dom, H. Qed.

(** Two values that [DeepDiff] finds equal are both empty or both not. *)
Lemma equal_unordered_truthy a b :
  equal_unordered a b = true -> truthy a = truthy b.
Proof.
  destruct a as [| x | x | x | l1 | d1], b as [| y | y | y | l2 | d2];
    try done; simpl.
  - by intros ->%Bool.eqb_prop.
  - by intros ->%Z.eqb_eq.
  - by intros ->%String.eqb_eq.
  - by destruct l1, l2.
  - rewrite andb_true_iff, bool_decide_eq_true. intros [_ H].
    by rewrite (size_dom_eq _ _ H).
Qed.

Lemma DeepDiff_same v : DeepDiff v v = false.
Proof. unfold DeepDiff. by rewrite equal_unordered_refl. Qed.

(** A key that one side holds with a non-empty value and the other with
    an empty one is a difference. *)
Lemma DeepDiff_emptied (a b : dict) k x y :
  a !! k = Some x -> b !! k = Some y ->
  truthy x = true -> truthy y = false ->
  DeepDiff (VDict a) (VDict b) = true.
Proof.
  intros Ha Hb Hx Hy. unfold DeepDiff.
  destruct (equal_unordered (VDict a) (VDict b)) eqn:E; [|done].
  apply equal_unordered_dict in E as [_ E].
  destruct (E k x Ha) as (y' & Hb' & Heq).
  rewrite Hb in Hb'. injection Hb' as <-.
  apply equal_unordered_truthy in Heq. congruence.
Qed.

End DeepDiffFacts.


Module ProtocolProofs.
Import Py KernelGate DeepDiff DeepDiffFacts ProtocolSpec.

Section AnyRemote.
Context {World : Type} (run : request -> World -> result response * World).

Lemma HttpHook_run_eq m ep d (st : Net) :
  HttpHook_run run m ep d st
  = ((run {| req_method := m; endpoint := ep; data := d |} (world st)).1,
     {| world := (run {| req_method := m; endpoint := ep; data := d |}
                      (world st)).2;
        sent := sent st ++ [{| req_method := m; endpoint := ep; data := d |}]
     |}).
Proof. unfold HttpHook_run. by destruct (run _ _). Qed.

Lemma create_payload_lookup (payload : dict) k v :
  create_payload payload !! k = Some v
  <-> payload !! k = Some v /\ truthy v = true.
Proof. unfold create_payload. by rewrite map_lookup_filter_Some. Qed.

(** The call on a probe that answers 404. *)
Lemma register_or_update_not_found
    (_id : string) (payload : dict) (entity_url : string) (st : Net)
    (response : response) (w : World) :
  run (probe entity_url _id) (world st) = (Ok response, w) ->
  status_code response = NOT_FOUND ->
  let put := create entity_url _id (create_payload payload) in
  register_or_update run _id payload entity_url st
  = ((run put w).1,
     {| world := (run put w).2;
        sent := sent st ++ [probe entity_url _id; put] |}).
Proof.
  intros Hrun Hst put.
  unfold register_or_update, bind.
  rewrite HttpHook_run_eq. fold (probe entity_url _id). rewrite Hrun.
  simpl. rewrite Hst. simpl.
  rewrite HttpHook_run_eq. simpl.
  fold (create entity_url _id (create_payload payload)).
  fold put. by rewrite <- app_assoc.
Qed.

(** C7: when the probe answers 404, the call sends the probe and then
    one PUT whose body holds exactly the items of the payload whose
    value is truthy: every key with an empty string, an empty list or an
    empty mapping (or any other falsy value) is gone, every other item
    is kept as it is, and the result of the call is the answer to that
    PUT. *)
Theorem create_strips_empty_values
    (_id : string) (payload : dict) (entity_url : string) (st : Net)
    (response : response) (w : World) :
  run (probe entity_url _id) (world st) = (Ok response, w) ->
  status_code response = NOT_FOUND ->
  let body := create_payload payload in
  let put := create entity_url _id body in
  register_or_update run _id payload entity_url st
  = ((run put w).1,
     {| world := (run put w).2;
        sent := sent st ++ [probe entity_url _id; put] |})
  /\ (forall k v, body !! k = Some v
                  <-> payload !! k = Some v /\ truthy v = true)
  /\ (forall k v, body !! k = Some v -> truthy v = true).
Proof.
  intros Hrun Hst body put. split; [|split].
  - by apply (register_or_update_not_found _ _ _ _ response).
  - intros k v. apply create_payload_lookup.
  - intros k v H. by apply create_payload_lookup in H as [_ ?].
Qed.

(** C6, as the code has it: when the probe answers with a status that is
    neither 200 nor 404, the call sends nothing after the probe, so
    neither a PUT nor a PATCH, and raises nothing: it returns the
    probe's response to the caller as its ordinary result. *)
Theorem unexpected_status_is_returned
    (_id : string) (payload : dict) (entity_url : string) (st : Net)
    (response : response) (w : World) :
  run (probe entity_url _id) (world st) = (Ok response, w) ->
  status_code response <> OK ->
  status_code response <> NOT_FOUND ->
  register_or_update run _id payload entity_url st
  = (Ok response,
     {| world := w; sent := sent st ++ [probe entity_url _id] |}).
Proof.
  intros Hrun H200 H404.
  unfold register_or_update, bind.
  rewrite HttpHook_run_eq. fold (probe entity_url _id). rewrite Hrun.
  simpl.
  apply Z.eqb_neq in H200, H404. by rewrite H200, H404.
Qed.

Lemma patch_payload_lookup (m payload : dict) k v :
  filter (fun kv : string * value => keep m kv.1 kv.2 = true) payload !! k
  = Some v
  <-> payload !! k = Some v /\ keep m k v = true.
Proof. by rewrite map_lookup_filter_Some. Qed.

(** The call on a probe that answers 200 with a metadata mapping. *)
Lemma register_or_update_found
    (_id : string) (payload : dict) (entity_url : string) (st : Net)
    (response : response) (w : World) (m : dict) :
  run (probe entity_url _id) (world st) = (Ok response, w) ->
  status_code response = OK ->
  json_metadata response = Ok (VDict m) ->
  let filtered :=
    filter (fun kv : string * value => keep m kv.1 kv.2 = true) payload in
  register_or_update run _id payload entity_url st
  = if DeepDiff (VDict m) (VDict filtered)
    then ((run (patch entity_url _id filtered) w).1,
          {| world := (run (patch entity_url _id filtered) w).2;
             sent := sent st ++ [probe entity_url _id;
                                 patch entity_url _id filtered] |})
    else (Ok response,
          {| world := w; sent := sent st ++ [probe entity_url _id] |}).
Proof.
  intros Hrun Hst Hm filtered.
  unfold register_or_update, bind.
  rewrite HttpHook_run_eq. fold (probe entity_url _id). rewrite Hrun.
  simpl. rewrite Hst. simpl. unfold lift. rewrite Hm. simpl.
  fold filtered. destruct (DeepDiff (VDict m) (VDict filtered)); [|done].
  rewrite HttpHook_run_eq. simpl. fold (patch entity_url _id filtered).
  by rewrite <- app_assoc.
Qed.

(** C1, as the code has it: when the probe answers 200 and the remote
    metadata holds a non-empty value under a key for which the new
    payload holds an empty one, the key stays in the filtered payload
    with the payload's empty value, the diff against the remote metadata
    is not empty, and the call sends a PATCH whose body carries that
    empty value. *)
Theorem emptied_field_is_patched
    (_id : string) (payload : dict) (entity_url : string) (st : Net)
    (response : response) (w : World) (m : dict)
    (k : string) (remote local : value) :
  run (probe entity_url _id) (world st) = (Ok response, w) ->
  status_code response = OK ->
  json_metadata response = Ok (VDict m) ->
  m !! k = Some remote -> truthy remote = true ->
  payload !! k = Some local -> truthy local = false ->
  exists filtered,
    patch_payload (VDict m) payload = Ok filtered
    /\ filtered !! k = Some local
    /\ DeepDiff (VDict m) (VDict filtered) = true
    /\ register_or_update run _id payload entity_url st
       = ((run (patch entity_url _id filtered) w).1,
          {| world := (run (patch entity_url _id filtered) w).2;
             sent := sent st ++ [probe entity_url _id;
                                 patch entity_url _id filtered] |}).
Proof.
  intros Hrun Hst Hm Hk Hremote Hp Hlocal.
  eexists. split; [reflexivity|].
  assert (filter (fun kv : string * value => keep m kv.1 kv.2 = true) payload
            !! k = Some local) as Hf.
  { apply patch_payload_lookup. split; [done|].
    unfold keep, get. rewrite Hk. simpl. by rewrite Hremote. }
  assert (DeepDiff (VDict m)
            (VDict (filter (fun kv : string * value =>
                              keep m kv.1 kv.2 = true) payload)) = true) as Hd.
  { by eapply DeepDiff_emptied. }
  split; [done|]. split; [done|].
  rewrite (register_or_update_found _ _ _ _ _ _ _ Hrun Hst Hm). simpl.
  by rewrite Hd.
Qed.

End AnyRemote.

End ProtocolProofs.


Module KernelProofs.
Import Py KernelGate DeepDiff DeepDiffFacts ProtocolSpec ProtocolProofs
  KernelSpec.

Lemma probe_miss (db : Kernel.store) entity_url _id :
  db !! (entity_url +:+ _id) = None ->
  Kernel.run (probe entity_url _id) db = (Ok not_found, db).
Proof. unfold Kernel.run. simpl. by intros ->. Qed.

Lemma probe_hit (db : Kernel.store) entity_url _id m :
  db !! (entity_url +:+ _id) = Some m ->
  Kernel.run (probe entity_url _id) db = (Ok (found m), db).
Proof. unfold Kernel.run. simpl. by intros ->. Qed.

Lemma json_metadata_found m : json_metadata (found m) = Ok (VDict m).
Proof. unfold json_metadata, found. simpl. by rewrite lookup_singleton_eq. Qed.

Lemma eq_None_l v : v <> VNone -> eq_ VNone v = false.
Proof. by destruct v. Qed.

(** Against what the create path stored, the patch filter keeps exactly
    the items that the create path kept. *)
Lemma keep_after_create (payload : dict) k v :
  (forall k, payload !! k <> Some VNone) ->
  payload !! k = Some v ->
  keep (create_payload payload) k v = truthy v.
Proof.
  intros Hnone Hk. unfold keep.
  destruct (truthy v) eqn:Hv; [by rewrite orb_true_r|].
  assert (create_payload payload !! k = None) as Hc.
  { apply map_lookup_filter_None. right. intros x Hx. simpl.
    rewrite Hk in Hx. injection Hx as <-. by rewrite Hv. }
  unfold get. rewrite Hc. change (default VNone None) with VNone.
  rewrite eq_None_l; [done|].
  intros ->. by apply (Hnone k).
Qed.

Lemma patch_after_create (payload : dict) :
  (forall k, payload !! k <> Some VNone) ->
  filter (fun kv : string * value =>
            keep (create_payload payload) kv.1 kv.2 = true) payload
  = create_payload payload.
Proof.
  intros Hnone. unfold create_payload at 2. apply map_filter_ext.
  intros k v Hk. simpl. by rewrite keep_after_create.
Qed.

Lemma create_strips_empty_values_witness :
  let body := create_payload local_journal in
  let put := create "/journals/" "0001-0002" body in
  register_or_update Kernel.run "0001-0002" local_journal "/journals/"
                     (start ∅)
  = ((Kernel.run put ∅).1,
     {| world := (Kernel.run put ∅).2;
        sent := [probe "/journals/" "0001-0002"; put] |})
  /\ (forall k v, body !! k = Some v
                  <-> local_journal !! k = Some v /\ truthy v = true)
  /\ (forall k v, body !! k = Some v -> truthy v = true).
Proof.
  apply (create_strips_empty_values Kernel.run "0001-0002" local_journal
           "/journals/" (start ∅) not_found ∅); reflexivity.
Defined.

Lemma unexpected_status_is_returned_witness :
  register_or_update (Kernel.answering 503) "0001-0002" local_journal
                     "/journals/" (start tt)
  = (Ok {| status_code := 503; body := None |},
     {| world := tt; sent := [probe "/journals/" "0001-0002"] |}).
Proof.
  apply (unexpected_status_is_returned (Kernel.answering 503) "0001-0002"
           local_journal "/journals/" (start tt)
           {| status_code := 503; body := None |} tt).
  - reflexivity.
  - unfold OK. simpl. lia.
  - unfold NOT_FOUND. simpl. lia.
Defined.

Lemma emptied_field_is_patched_witness :
  exists filtered,
    patch_payload (VDict remote_journal) local_journal = Ok filtered
    /\ filtered !! "acronym" = Some (VStr "")
    /\ DeepDiff (VDict remote_journal) (VDict filtered) = true
    /\ register_or_update Kernel.run "0001-0002" local_journal
                          "/journals/" (start one_journal)
       = ((Kernel.run (patch "/journals/" "0001-0002" filtered)
                      one_journal).1,
          {| world := (Kernel.run (patch "/journals/" "0001-0002" filtered)
                                  one_journal).2;
             sent := [probe "/journals/" "0001-0002";
                      patch "/journals/" "0001-0002" filtered] |}).
Proof.
  apply (emptied_field_is_patched Kernel.run "0001-0002" local_journal
           "/journals/" (start one_journal) (found remote_journal)
           one_journal remote_journal "acronym" (VStr "X") (VStr ""));
    vm_compute; reflexivity.
Defined.

(** C2, as the code has it: against a store that keeps what it is sent,
    for a payload none of whose values is [None]: when the entity does
    not exist, the first run sends the probe and a PUT of the payload
    without its empty values, and the second run sends the probe only,
    finds no difference and leaves the store as it is; when the entity
    exists and the first run finds no difference (for any payload), both
    runs send the probe only and the store is never written. *)
Theorem reconcile_twice
    (_id : string) (payload : dict) (entity_url : string)
    (db : Kernel.store) :
  let first :=
    register_or_update Kernel.run _id payload entity_url (start db) in
  let second :=
    register_or_update Kernel.run _id payload entity_url
                       (start (world first.2)) in
  (db !! (entity_url +:+ _id) = None ->
   (forall k, payload !! k <> Some VNone) ->
   sent first.2 = [probe entity_url _id;
                   create entity_url _id (create_payload payload)]
   /\ is_ok first.1 = true
   /\ world first.2 !! (entity_url +:+ _id) = Some (create_payload payload)
   /\ sent second.2 = [probe entity_url _id]
   /\ second.1 = Ok (found (create_payload payload))
   /\ world second.2 = world first.2)
  /\ (forall m filtered,
        db !! (entity_url +:+ _id) = Some m ->
        patch_payload (VDict m) payload = Ok filtered ->
        DeepDiff (VDict m) (VDict filtered) = false ->
        sent first.2 = [probe entity_url _id]
        /\ first.1 = Ok (found m)
        /\ world first.2 = db
        /\ sent second.2 = [probe entity_url _id]
        /\ second.1 = Ok (found m)
        /\ world second.2 = db).
Proof.
  intros first second. split.
  - intros Hmiss Hnone.
    pose proof (register_or_update_not_found Kernel.run _id payload
                  entity_url (start db) not_found db
                  (probe_miss _ _ _ Hmiss) eq_refl) as H1.
    simpl in H1. fold first in H1.
    assert (world first.2 !! (entity_url +:+ _id)
            = Some (create_payload payload)) as Hw.
    { rewrite H1. simpl. by rewrite lookup_insert_eq. }
    pose proof (register_or_update_found Kernel.run _id payload entity_url
                  (start (world first.2)) (found (create_payload payload))
                  (world first.2) (create_payload payload)
                  (probe_hit _ _ _ _ Hw) eq_refl
                  (json_metadata_found _)) as H2.
    simpl in H2. fold second in H2.
    rewrite patch_after_create, DeepDiff_same in H2 by done.
    rewrite H2, H1. simpl. by rewrite lookup_insert_eq.
  - intros m filtered Hhit Hf Hd. simpl in Hf. injection Hf as <-.
    pose proof (register_or_update_found Kernel.run _id payload entity_url
                  (start db) (found m) db m
                  (probe_hit _ _ _ _ Hhit) eq_refl
                  (json_metadata_found _)) as H1.
    simpl in H1. fold first in H1. rewrite Hd in H1.
    assert (second = first) as ->.
    { unfold second. by rewrite H1. }
    by rewrite H1.
Qed.

Lemma reconcile_twice_witness :
  let first :=
    register_or_update Kernel.run "0001-0002" local_journal "/journals/"
                       (start ∅) in
  let second :=
    register_or_update Kernel.run "0001-0002" local_journal "/journals/"
                       (start (world first.2)) in
  sent first.2 = [probe "/journals/" "0001-0002";
                  create "/journals/" "0001-0002"
                         (create_payload local_journal)]
  /\ sent second.2 = [probe "/journals/" "0001-0002"].
Proof.
  destruct (reconcile_twice "0001-0002" local_journal "/journals/" ∅)
    as [H _].
  assert (forall k, local_journal !! k <> Some VNone) as Hnone.
  { intros k. unfold local_journal.
    rewrite lookup_insert, lookup_singleton. by repeat case_decide. }
  destruct (H eq_refl Hnone) as (H1 & _ & _ & H2 & _).
  split; [exact H1 | exact H2].
Defined.

(** [reconcile_twice] does not extend to a payload that holds [None]:
    the create path drops the key, and on the second run [None == None]
    keeps it, so the second run sends a PATCH. *)
Lemma none_valued_payload_is_patched_on_second_run :
  let first :=
    register_or_update Kernel.run "0001-0002" payload_with_none
                       "/journals/" (start ∅) in
  let second :=
    register_or_update Kernel.run "0001-0002" payload_with_none
                       "/journals/" (start (world first.2)) in
  sent first.2 = [probe "/journals/" "0001-0002";
                  create "/journals/" "0001-0002" {[ "title" := VStr "A" ]}]
  /\ sent second.2 = [probe "/journals/" "0001-0002";
                      patch "/journals/" "0001-0002" payload_with_none]
  /\ sent second.2 <> [probe "/journals/" "0001-0002"].
Proof.
  intros first second.
  assert (sent second.2 = [probe "/journals/" "0001-0002";
                           patch "/journals/" "0001-0002" payload_with_none])
    as H2 by (vm_compute; reflexivity).
  split; [vm_compute; reflexivity|].
  split; [exact H2|].
  rewrite H2. discriminate.
Qed.

(** Diff suppression does not hold on the spec's own example: with remote
    metadata [{"title": "A", "acronym": "X"}] and new payload
    [{"title": "A", "acronym": ""}] the diff is not empty, a PATCH is
    sent, and the store ends with the empty acronym. *)
Lemma empty_value_erases_remote_value :
  let run :=
    register_or_update Kernel.run "0001-0002" local_journal "/journals/"
                       (start one_journal) in
  patch_payload (VDict remote_journal) local_journal = Ok local_journal
  /\ DeepDiff (VDict remote_journal) (VDict local_journal) = true
  /\ sent run.2 = [probe "/journals/" "0001-0002";
                   patch "/journals/" "0001-0002" local_journal]
  /\ world run.2 !! "/journals/0001-0002" = Some local_journal
  /\ ~ (DeepDiff (VDict remote_journal) (VDict local_journal) = false
        /\ existsb is_write (sent run.2) = false).
Proof.
  intros run.
  assert (DeepDiff (VDict remote_journal) (VDict local_journal) = true)
    as Hdiff by (vm_compute; reflexivity).
  split; [vm_compute; reflexivity|].
  split; [exact Hdiff|].
  split; [vm_compute; reflexivity|].
  split; [vm_compute; reflexivity|].
  intros [H _]. congruence.
Qed.

(** A status that is neither 200 nor 404 is not a failure of the call:
    against a server that answers 500 to everything, the call returns
    that response and raises nothing. *)
Lemma server_error_is_not_raised :
  let run :=
    register_or_update (Kernel.answering 500) "0001-0002" local_journal
                       "/journals/" (start tt) in
  run.1 = Ok {| status_code := 500; body := None |}
  /\ ~ (exists e, run.1 = Raise e).
Proof. split; [reflexivity|]. by intros [e ?]. Qed.

End KernelProofs.


Module BatchProofs.
Import Py Xylose KernelGate ProtocolSpec NormalizerSpec BatchSpec.

Section AnyRemoteBatch.
Context {World : Type} (run : request -> World -> result response * World).

Lemma for_each_entity_cons entity entities entity_url (st : Net) :
  for_each_entity run (entity :: entities) entity_url st
  = match reconcile_entity run entity_url entity st with
    | (Ok _, st') => for_each_entity run entities entity_url st'
    | (Raise e, st') => (Raise e, st')
    end.
Proof.
  simpl. unfold reconcile_entity, bind, lift, ret.
  destruct (pop entity "_id") as [popped|]; [|done].
  by destruct (register_or_update run _ _ _ st) as [[?|?] ?].
Qed.

Lemma for_each_entity_app xs ys entity_url (st : Net) :
  for_each_entity run (xs ++ ys)%list entity_url st
  = match for_each_entity run xs entity_url st with
    | (Ok _, st') => for_each_entity run ys entity_url st'
    | (Raise e, st') => (Raise e, st')
    end.
Proof.
  revert st. induction xs as [|x xs IH]; intros st; [done|].
  rewrite <- app_comm_cons, !for_each_entity_cons.
  destruct (reconcile_entity run entity_url x st) as [[?|?] ?]; [apply IH|done].
Qed.

Lemma comprehension_raises {A B} (f : A -> result B) pre bad post e :
  Forall (fun x => is_ok (f x) = true) pre ->
  f bad = Raise e ->
  comprehension f (pre ++ bad :: post)%list = Raise e.
Proof.
  intros Hpre Hbad. induction Hpre as [|x pre Hx _ IH]; simpl.
  - by rewrite Hbad.
  - destruct (f x); [|done]. simpl. by rewrite IH.
Qed.

(** C3, as the code has it: a batch fails as a whole when its input
    stream cannot be obtained, and also at the first entity that fails.
    An issue that cannot be normalized fails the batch before any
    request is sent, for the entities in front of it too, because the
    whole stream is normalized first.  An entity whose reconciliation
    raises ends the loop there, and nothing is sent for the entities
    after it.  The entities are reconciled one after the other, in the
    order of the stream, as long as none raises; the responses are not
    collected. *)
Theorem batch_stops_at_first_failure (st : Net) :
  (forall e,
      process_journals run (Raise e) st = (Raise e, st)
      /\ process_issues run (Raise e) st = (Raise e, st))
  /\ (forall issues pre bad post e,
        filter_issues issues = (pre ++ bad :: post)%list ->
        Forall (fun i => is_ok (issue_as_kernel i) = true) pre ->
        issue_as_kernel bad = Raise e ->
        process_issues run (Ok issues) st = (Raise e, st))
  /\ (forall entity_url before entity after st1 st2 e,
        for_each_entity run before entity_url st = (Ok tt, st1) ->
        reconcile_entity run entity_url entity st1 = (Raise e, st2) ->
        for_each_entity run (before ++ entity :: after)%list entity_url st
        = (Raise e, st2))
  /\ (forall entity_url before after st1,
        for_each_entity run before entity_url st = (Ok tt, st1) ->
        for_each_entity run (before ++ after)%list entity_url st
        = for_each_entity run after entity_url st1)
  /\ (forall journals,
        process_journals run (Ok journals) st
        = for_each_entity run (map journal_as_kernel journals)
                          KERNEL_API_JOURNAL_ENDPOINT st)
  /\ (forall issues payloads,
        comprehension issue_as_kernel (filter_issues issues) = Ok payloads ->
        process_issues run (Ok issues) st
        = for_each_entity run payloads KERNEL_API_BUNDLES_ENDPOINT st).
Proof.
  split; [done|]. split; [|split; [|split; [|split]]].
  - intros issues pre bad post e Hf Hpre Hbad.
    unfold process_issues, bind, lift.
    by rewrite Hf, (comprehension_raises _ _ _ _ _ Hpre Hbad).
  - intros entity_url before entity after st1 st2 e H1 H2.
    by rewrite for_each_entity_app, H1, for_each_entity_cons, H2.
  - intros entity_url before after st1 H1.
    by rewrite for_each_entity_app, H1.
  - done.
  - intros issues payloads H. unfold process_issues, bind, lift.
    by rewrite H.
Qed.

End AnyRemoteBatch.

Lemma batch_stops_at_first_failure_witness :
  process_issues Kernel.run (Ok [example_issue; bad_date_issue])
                 (start ∅)
  = (Raise ValueError, start ∅).
Proof.
  destruct (batch_stops_at_first_failure Kernel.run (start ∅))
    as (_ & H & _).
  apply (H _ [example_issue] bad_date_issue []).
  - reflexivity.
  - by repeat constructor.
  - reflexivity.
Defined.

(** A failing entity does stop the batch, both for a decode error and
    for a transport error: an issue with an
    impossible date in front of a good one fails the batch with no
    request sent, although the good issue on its own is created; and
    when the first journal's probe cannot reach the store, the second
    journal is never probed. *)
Lemma one_failure_stops_the_batch :
  process_issues Kernel.run (Ok [bad_date_issue; example_issue]) (start ∅)
  = (Raise ValueError, start ∅)
  /\ map endpoint
         (sent (process_issues Kernel.run (Ok [example_issue]) (start ∅)).2)
     = ["/bundles/0001-0002-2019-v1-s0"; "/bundles/0001-0002-2019-v1-s0"]
  /\ (let r := process_journals Kernel.unreachable
                 (Ok [example_journal; other_journal]) (start tt) in
      r.1 = Raise ConnectionError
      /\ sent r.2 = [probe "/journals/" "0001-0002"]).
Proof.
  split; [vm_compute; reflexivity|].
  split; [vm_compute; reflexivity|].
  split; vm_compute; reflexivity.
Qed.

End BatchProofs.

(* ================================================================== *)
(** * Further properties of the code *)

Module ProtocolExtras.
Import Py KernelGate DeepDiff DeepDiffSpec DeepDiffFacts ProtocolSpec
  ProtocolProofs ExtraSpec.

(** [==] holds between a value and itself. *)
Lemma eq_refl_value v : eq_ v v = true.
Proof.
  induction v as [v IH] using (induction_ltof1 _ vsize). unfold ltof in IH.
  destruct v as [| b | z | s | l | d]; simpl; try done.
  - by destruct b.
  - apply Z.eqb_refl.
  - apply String.eqb_refl.
  - assert (forall x, In x l -> eq_ x x = true) as H.
    { intros x Hx. apply IH. by apply vsize_elem. }
    clear IH. induction l as [|x l IHl]; [done|].
    rewrite H by (by left). simpl. apply IHl. intros y Hy. apply H. by right.
  - rewrite andb_true_iff, bool_decide_eq_true. split; [|done].
    apply map_fold_and. intros k x Hk. rewrite Hk.
    apply IH. by eapply vsize_lookup.
Qed.

Section AnyRemoteExtras.
Context {World : Type} (run : request -> World -> result response * World).

(** [register_or_update], branch by branch. *)
Lemma register_or_update_eq _id payload entity_url (st : Net) :
  register_or_update run _id payload entity_url st
  = match run (probe entity_url _id) (world st) with
    | (Raise e, w) =>
        (Raise e, {| world := w; sent := sent st ++ [probe entity_url _id] |})
    | (Ok response, w) =>
        let st1 :=
          {| world := w; sent := sent st ++ [probe entity_url _id] |} in
        if status_code response =? NOT_FOUND then
          HttpHook_run run PUT (entity_url +:+ _id)
                       (Some (create_payload payload)) st1
        else if status_code response =? OK then
          match json_metadata response with
          | Raise e => (Raise e, st1)
          | Ok _metadata =>
              match patch_payload _metadata payload with
              | Raise e => (Raise e, st1)
              | Ok filtered =>
                  if DeepDiff _metadata (VDict filtered)
                  then HttpHook_run run PATCH (entity_url +:+ _id)
                                    (Some filtered) st1
                  else (Ok response, st1)
              end
          end
        else (Ok response, st1)
    end.
Proof.
  unfold register_or_update, bind. rewrite HttpHook_run_eq.
  fold (probe entity_url _id).
  destruct (run (probe entity_url _id) (world st)) as [[response|e] w];
    simpl; [|done].
  destruct (status_code response =? NOT_FOUND); [done|].
  destruct (status_code response =? OK); [|done].
  unfold lift. destruct (json_metadata response) as [m|e]; [|done].
  destruct (patch_payload m payload) as [filtered|e]; [|done]. simpl.
  by destruct (DeepDiff m (VDict filtered)).
Qed.

Lemma patch_payload_subseteq _metadata payload filtered :
  patch_payload _metadata payload = Ok filtered -> filtered ⊆ payload.
Proof.
  unfold patch_payload. destruct _metadata;
    try (case_bool_decide; [by intros [= <-] | done]).
  intros [= <-]. apply map_filter_subseteq.
Qed.

(** The shape of what one call sends. *)
Lemma register_or_update_shape _id payload entity_url (st : Net) :
  exists rest,
    sent (register_or_update run _id payload entity_url st).2
    = (sent st ++ probe entity_url _id :: rest)%list
    /\ (rest = []
        \/ exists body,
             body ⊆ payload
             /\ (rest = [create entity_url _id body]
                 \/ rest = [patch entity_url _id body])).
Proof.
  rewrite register_or_update_eq.
  destruct (run (probe entity_url _id) (world st)) as [[response|e] w];
    [|by exists []; split; [|left]].
  simpl.
  destruct (status_code response =? NOT_FOUND).
  { rewrite HttpHook_run_eq. simpl. eexists. rewrite <- app_assoc.
    split; [reflexivity|]. right. exists (create_payload payload).
    split; [apply map_filter_subseteq | by left]. }
  destruct (status_code response =? OK); [|by exists []; split; [|left]].
  destruct (json_metadata response) as [m|e];
    [|by exists []; split; [|left]].
  destruct (patch_payload m payload) as [filtered|e] eqn:Hf;
    [|by exists []; split; [|left]].
  destruct (DeepDiff m (VDict filtered)); [|by exists []; split; [|left]].
  rewrite HttpHook_run_eq. simpl. eexists. rewrite <- app_assoc.
  split; [reflexivity|]. right. exists filtered.
  split; [by eapply patch_payload_subseteq | by right].
Qed.

(** X3: one call sends the probe first and then at most one write, a PUT
    or a PATCH to the resource it probed, and every item of the body of
    that write is an item of the payload it was given. *)
Theorem one_probe_then_at_most_one_write
    (_id : string) (payload : dict) (entity_url : string) (st : Net) :
  exists rest,
    sent (register_or_update run _id payload entity_url st).2
    = (sent st ++ probe entity_url _id :: rest)%list
    /\ (rest = []
        \/ exists body,
             body ⊆ payload
             /\ (rest = [create entity_url _id body]
                 \/ rest = [patch entity_url _id body])).
Proof. apply register_or_update_shape. Qed.

(** X4: when the probe itself cannot be carried out, the call raises the
    transport's exception and sends nothing else. *)
Theorem probe_failure_is_raised
    (_id : string) (payload : dict) (entity_url : string) (st : Net)
    (e : exn) (w : World) :
  run (probe entity_url _id) (world st) = (Raise e, w) ->
  register_or_update run _id payload entity_url st
  = (Raise e, {| world := w; sent := sent st ++ [probe entity_url _id] |}).
Proof. intros H. by rewrite register_or_update_eq, H. Qed.

(** X5: when the probe answers 200 with a body from which
    [response.json()["metadata"]] cannot be read, the call raises and no
    write is sent: [ValueError] for a body that is not JSON, [KeyError]
    for an object without ["metadata"], [TypeError] for JSON that is not
    an object. *)
Theorem unreadable_metadata_is_raised
    (_id : string) (payload : dict) (entity_url : string) (st : Net)
    (response : response) (w : World) :
  run (probe entity_url _id) (world st) = (Ok response, w) ->
  status_code response = OK ->
  let failed e :=
    register_or_update run _id payload entity_url st
    = (Raise e,
       {| world := w; sent := sent st ++ [probe entity_url _id] |}) in
  (body response = None -> failed ValueError)
  /\ (forall d, body response = Some (VDict d) -> d !! "metadata" = None ->
        failed KeyError)
  /\ (forall v, body response = Some v ->
        (forall d, v <> VDict d) -> failed TypeError).
Proof.
  intros Hrun Hst failed. unfold failed.
  rewrite register_or_update_eq, Hrun. simpl. rewrite Hst. simpl.
  unfold json_metadata. split; [|split].
  - by intros ->.
  - intros d -> Hd. by rewrite Hd.
  - intros v -> Hv. destruct v; try done. by destruct (Hv d).
Qed.

(** X6: when the probe answers 200 with metadata that is not an object,
    a payload with at least one item makes the call raise
    [AttributeError] at the first [_metadata.get], and no write is
    sent; with an empty payload nothing is looked up, the diff is not
    empty, and a PATCH with an empty body is sent. *)
Theorem metadata_that_is_not_an_object
    (_id : string) (payload : dict) (entity_url : string) (st : Net)
    (response : response) (w : World) (m : value) :
  run (probe entity_url _id) (world st) = (Ok response, w) ->
  status_code response = OK ->
  json_metadata response = Ok m ->
  (forall d, m <> VDict d) ->
  (payload <> ∅ ->
   register_or_update run _id payload entity_url st
   = (Raise AttributeError,
      {| world := w; sent := sent st ++ [probe entity_url _id] |}))
  /\ (payload = ∅ ->
      sent (register_or_update run _id payload entity_url st).2
      = (sent st ++ [probe entity_url _id; patch entity_url _id ∅])%list).
Proof.
  intros Hrun Hst Hm Hnot.
  rewrite register_or_update_eq, Hrun. simpl. rewrite Hst, Hm. simpl.
  assert (patch_payload m payload
          = if bool_decide (size payload = 0%nat)
            then Ok payload else Raise AttributeError) as ->.
  { destruct m; try done. by destruct (Hnot d). }
  split.
  - intros Hne. rewrite bool_decide_eq_false_2; [done|].
    by intros ?%map_size_empty_inv.
  - intros ->. rewrite bool_decide_eq_true_2 by apply map_size_empty.
    assert (DeepDiff m (VDict ∅) = true) as ->.
    { destruct m; try done. by destruct (Hnot d). }
    rewrite HttpHook_run_eq. simpl. by rewrite <- app_assoc.
Qed.

Lemma keep_same (payload : dict) k v :
  payload !! k = Some v -> keep payload k v = true.
Proof.
  intros H. unfold keep, get. rewrite H. simpl.
  by rewrite eq_refl_value, orb_true_r.
Qed.

(** X7: when the probe answers 200 and the remote metadata is the payload
    itself, value for value, nothing is dropped by the filter, the diff
    is empty, and the call sends no write and returns the probe's
    response. *)
Theorem matching_metadata_is_left_alone
    (_id : string) (payload : dict) (entity_url : string) (st : Net)
    (response : response) (w : World) :
  run (probe entity_url _id) (world st) = (Ok response, w) ->
  status_code response = OK ->
  json_metadata response = Ok (VDict payload) ->
  patch_payload (VDict payload) payload = Ok payload
  /\ register_or_update run _id payload entity_url st
     = (Ok response,
        {| world := w; sent := sent st ++ [probe entity_url _id] |}).
Proof.
  intros Hrun Hst Hm.
  assert (filter (fun kv : string * value => keep payload kv.1 kv.2 = true)
            payload = payload) as Hf.
  { apply map_filter_id. intros k v Hk. by apply keep_same. }
  split; [simpl; by rewrite Hf|].
  rewrite (register_or_update_found run _ _ _ _ _ _ _ Hrun Hst Hm).
  simpl. by rewrite Hf, DeepDiff_same.
Qed.

(** X8: when the probe answers 200 and the remote metadata has a key that
    the payload does not have, the diff is never empty: the call sends a
    PATCH, whatever the other keys hold. *)
Theorem remote_only_key_forces_a_patch
    (_id : string) (payload : dict) (entity_url : string) (st : Net)
    (response : response) (w : World) (m : dict) (k : string) :
  run (probe entity_url _id) (world st) = (Ok response, w) ->
  status_code response = OK ->
  json_metadata response = Ok (VDict m) ->
  is_Some (m !! k) -> payload !! k = None ->
  exists filtered,
    patch_payload (VDict m) payload = Ok filtered
    /\ DeepDiff (VDict m) (VDict filtered) = true
    /\ sent (register_or_update run _id payload entity_url st).2
       = (sent st ++ [probe entity_url _id;
                     patch entity_url _id filtered])%list.
Proof.
  intros Hrun Hst Hm [x Hk] Hp. eexists. split; [reflexivity|].
  set (filtered := filter _ payload).
  assert (DeepDiff (VDict m) (VDict filtered) = true) as Hd.
  { unfold DeepDiff.
    destruct (equal_unordered (VDict m) (VDict filtered)) eqn:E; [|done].
    apply equal_unordered_dict in E as [_ E].
    destruct (E k x Hk) as (y & Hy & _).
    apply map_lookup_filter_Some in Hy as [Hy _]. congruence. }
  split; [done|].
  rewrite (register_or_update_found run _ _ _ _ _ _ _ Hrun Hst Hm).
  simpl. fold filtered. by rewrite Hd.
Qed.

(** X9: against remote metadata that is an object, the body prepared for
    a PATCH lies between the body a PUT would carry and the payload: it
    keeps every item whose value is not empty, adds nothing, and drops
    an item only when its value is empty and the remote holds nothing
    (or an empty value) under that key. *)
Theorem patch_body_between_create_body_and_payload
    (m payload filtered : dict) :
  patch_payload (VDict m) payload = Ok filtered ->
  create_payload payload ⊆ filtered
  /\ filtered ⊆ payload
  /\ (forall k v, payload !! k = Some v -> filtered !! k = None ->
        truthy v = false /\ truthy (get m k) = false).
Proof.
  intros [= <-]. split; [|split].
  - apply map_subseteq_spec. intros k v [Hk Hv]%create_payload_lookup.
    apply map_lookup_filter_Some. split; [done|]. simpl.
    unfold keep. by rewrite Hv, orb_true_r.
  - apply map_filter_subseteq.
  - intros k v Hk Hnone.
    apply map_lookup_filter_None in Hnone as [Hnone|Hnone]; [congruence|].
    specialize (Hnone v Hk). simpl in Hnone. unfold keep in Hnone.
    destruct (truthy v), (truthy (get m k)); try done;
      exfalso; apply Hnone; by rewrite ?orb_true_r.
Qed.

End AnyRemoteExtras.

Lemma probe_failure_is_raised_witness :
  register_or_update Kernel.unreachable "0001-0002" title_only "/journals/"
                     (start tt)
  = (Raise ConnectionError,
     {| world := tt; sent := [probe "/journals/" "0001-0002"] |}).
Proof.
  apply (probe_failure_is_raised Kernel.unreachable "0001-0002" title_only
           "/journals/" (start tt) ConnectionError tt).
  reflexivity.
Defined.

Lemma unreadable_metadata_is_raised_witness :
  register_or_update (Kernel.answering 200) "0001-0002" title_only
                     "/journals/" (start tt)
  = (Raise ValueError,
     {| world := tt; sent := [probe "/journals/" "0001-0002"] |}).
Proof.
  destruct (unreadable_metadata_is_raised (Kernel.answering 200)
              "0001-0002" title_only "/journals/" (start tt)
              {| status_code := 200; body := None |} tt eq_refl eq_refl)
    as [H _].
  apply H. reflexivity.
Defined.

Lemma metadata_that_is_not_an_object_witness :
  sent (register_or_update (answering_with list_metadata)
                           "0001-0002" ∅ "/journals/" (start tt)).2
  = [probe "/journals/" "0001-0002"; patch "/journals/" "0001-0002" ∅].
Proof.
  assert (json_metadata list_metadata = Ok (VList [])) as Hm
    by (vm_compute; reflexivity).
  assert (forall d, VList [] <> VDict d) as Hnot by (intros d; discriminate).
  destruct (metadata_that_is_not_an_object
              (answering_with list_metadata)
              "0001-0002" ∅ "/journals/" (start tt) list_metadata
              tt (VList []) eq_refl eq_refl Hm Hnot) as [_ H].
  apply H. reflexivity.
Defined.

Lemma matching_metadata_is_left_alone_witness :
  patch_payload (VDict KernelSpec.remote_journal) KernelSpec.remote_journal
  = Ok KernelSpec.remote_journal
  /\ register_or_update Kernel.run "0001-0002" KernelSpec.remote_journal
                        "/journals/" (start KernelSpec.one_journal)
     = (Ok (KernelSpec.found KernelSpec.remote_journal),
        {| world := KernelSpec.one_journal;
           sent := [probe "/journals/" "0001-0002"] |}).
Proof.
  apply (matching_metadata_is_left_alone Kernel.run "0001-0002"
           KernelSpec.remote_journal "/journals/"
           (start KernelSpec.one_journal)
           (KernelSpec.found KernelSpec.remote_journal)
           KernelSpec.one_journal);
    vm_compute; reflexivity.
Defined.

Lemma remote_only_key_forces_a_patch_witness :
  exists filtered,
    patch_payload (VDict KernelSpec.remote_journal) title_only = Ok filtered
    /\ DeepDiff (VDict KernelSpec.remote_journal) (VDict filtered) = true
    /\ sent (register_or_update Kernel.run "0001-0002" title_only
                                "/journals/"
                                (start KernelSpec.one_journal)).2
       = [probe "/journals/" "0001-0002";
          patch "/journals/" "0001-0002" filtered].
Proof.
  apply (remote_only_key_forces_a_patch Kernel.run "0001-0002" title_only
           "/journals/" (start KernelSpec.one_journal)
           (KernelSpec.found KernelSpec.remote_journal)
           KernelSpec.one_journal KernelSpec.remote_journal "acronym").
  - vm_compute; reflexivity.
  - reflexivity.
  - vm_compute; reflexivity.
  - exists (VStr "X"). vm_compute; reflexivity.
  - vm_compute; reflexivity.
Defined.

Lemma patch_body_between_create_body_and_payload_witness :
  create_payload KernelSpec.local_journal ⊆ title_only
  /\ title_only ⊆ KernelSpec.local_journal
  /\ (forall k v, KernelSpec.local_journal !! k = Some v ->
        title_only !! k = None ->
        truthy v = false /\ truthy (get title_only k) = false).
Proof.
  apply (patch_body_between_create_body_and_payload
           title_only KernelSpec.local_journal title_only).
  vm_compute; reflexivity.
Defined.

End ProtocolExtras.

Module BatchExtras.
Import Py Xylose KernelGate ProtocolSpec NormalizerSpec NormalizerProofs
  IssueProofs BatchProofs ProtocolExtras ExtraSpec.

Lemma filter_twice {A} (f g : A -> bool) (l : list A) :
  List.filter g (List.filter f l) = List.filter (fun x => f x && g x) l.
Proof.
  induction l as [|x l IH]; [done|]. simpl.
  destruct (f x); simpl; [|done]. destruct (g x); by rewrite IH.
Qed.

Lemma filter_issues_filter issues :
  filter_issues issues = List.filter publishable issues.
Proof. unfold filter_issues. simpl. apply filter_twice. Qed.

(** X1: [filter_issues] keeps exactly the issues whose type is neither
    "pressrelease" nor "ahead", in the order of the input: it works
    issue by issue, so it distributes over concatenation, and filtering
    twice is filtering once. *)
Theorem filter_issues_keeps_publishable_in_order (xs ys : list Issue) :
  (forall x, In x (filter_issues xs)
             <-> In x xs /\ type x <> "pressrelease" /\ type x <> "ahead")
  /\ filter_issues (xs ++ ys) = (filter_issues xs ++ filter_issues ys)%list
  /\ filter_issues (filter_issues xs) = filter_issues xs.
Proof.
  rewrite !filter_issues_filter. split; [|split].
  - intros x. rewrite List.filter_In. unfold publishable.
    rewrite andb_true_iff, !negb_true_iff, !String.eqb_neq. tauto.
  - apply List.filter_app.
  - induction xs as [|x xs IH]; [done|]. simpl.
    destruct (publishable x) eqn:E; simpl; [|done]. by rewrite E, IH.
Qed.

Lemma prefix_app s t : String.prefix s (s +:+ t) = true.
Proof.
  induction s as [|a s IH].
  { change ("" +:+ t) with t. by destruct t. }
  change (String a s +:+ t) with (String a (s +:+ t)). simpl.
  destruct (ascii_dec a a); [exact IH | congruence].
Qed.

Section AnyRemoteBatchExtras.
Context {World : Type} (run : request -> World -> result response * World).

(** X2: a press release or an ahead-of-print issue has no effect on the
    issue batch, wherever it stands in the stream and even when it could
    not be normalized, because the records are filtered before any of
    them is normalized; a stream of such issues only sends nothing and
    returns. *)
Theorem unpublishable_issue_is_ignored (st : Net) :
  (forall (pre post : list Issue) (x : Issue),
      type x = "pressrelease" \/ type x = "ahead" ->
      process_issues run (Ok (pre ++ x :: post)%list) st
      = process_issues run (Ok (pre ++ post)%list) st)
  /\ (forall issues : list Issue,
        Forall (fun x => type x = "pressrelease" \/ type x = "ahead")
               issues ->
        process_issues run (Ok issues) st = (Ok tt, st)).
Proof.
  assert (forall x, type x = "pressrelease" \/ type x = "ahead" ->
                    publishable x = false) as Hpub.
  { intros x Hx. unfold publishable. by destruct Hx as [-> | ->]. }
  split.
  - intros pre post x Hx. unfold process_issues, bind, lift.
    rewrite !filter_issues_filter, !List.filter_app. simpl.
    by rewrite (Hpub x Hx).
  - intros issues Hall. unfold process_issues, bind, lift.
    rewrite filter_issues_filter.
    assert (List.filter publishable issues = []) as ->; [|done].
    induction Hall as [|x xs Hx _ IH]; [done|]. simpl.
    by rewrite (Hpub x Hx).
Qed.

(** What one turn of the loop sends. *)
Lemma reconcile_entity_trace entity_url entity (st : Net) :
  exists new,
    sent (reconcile_entity run entity_url entity st).2
    = (sent st ++ new)%list
    /\ (length new <= 2)%nat
    /\ Forall (well_addressed entity_url) new
    /\ (is_ok (reconcile_entity run entity_url entity st).1 = true ->
        map endpoint (List.filter is_probe new)
        = [entity_endpoint entity_url entity]).
Proof.
  unfold reconcile_entity, bind, lift, entity_endpoint, get, pop.
  destruct (entity !! "_id") as [v|] eqn:Hid.
  2:{ exists []. rewrite app_nil_r. simpl.
      split; [done|]. split; [lia|]. split; [constructor | done]. }
  simpl.
  destruct (register_or_update_shape run (format_id v) (delete "_id" entity)
              entity_url st) as (rest & Hsent & Hrest).
  assert (well_addressed entity_url (probe entity_url (format_id v)))
    as Hprobe by (split; [apply prefix_app | done]).
  assert (forall body, body ⊆ delete "_id" entity -> body !! "_id" = None)
    as Hbody.
  { intros body Hsub.
    eapply lookup_weaken_None; [apply lookup_delete_eq | done]. }
  exists (probe entity_url (format_id v) :: rest).
  assert (sent (match register_or_update run (format_id v)
                        (delete "_id" entity) entity_url st with
                | (Ok _, st') => (Ok (), st')
                | (Raise e, st') => (Raise e, st')
                end).2
          = (sent st ++ probe entity_url (format_id v) :: rest)%list) as Hs.
  { by destruct (register_or_update run _ _ _ st) as [[?|?] ?]. }
  unfold ret. split; [exact Hs|].
  destruct Hrest as [-> | (body & Hsub & [-> | ->])]; simpl.
  - split; [lia|]. split; [|done].
    constructor; [exact Hprobe | constructor].
  - split; [lia|]. split; [|done].
    constructor; [exact Hprobe|]. constructor; [|constructor].
    split; [apply prefix_app|]. simpl. intros ? [= <-]. by apply Hbody.
  - split; [lia|]. split; [|done].
    constructor; [exact Hprobe|]. constructor; [|constructor].
    split; [apply prefix_app|]. simpl. intros ? [= <-]. by apply Hbody.
Qed.

(** What the loop sends. *)
Lemma for_each_entity_trace entities entity_url (st : Net) :
  exists new,
    sent (for_each_entity run entities entity_url st).2
    = (sent st ++ new)%list
    /\ (length new <= 2 * length entities)%nat
    /\ Forall (well_addressed entity_url) new
    /\ (is_ok (for_each_entity run entities entity_url st).1 = true ->
        map endpoint (List.filter is_probe new)
        = map (entity_endpoint entity_url) entities).
Proof.
  revert st. induction entities as [|entity entities IH]; intros st.
  { exists []. simpl. by rewrite app_nil_r. }
  rewrite for_each_entity_cons.
  destruct (reconcile_entity_trace entity_url entity st)
    as (new1 & H1 & Hlen1 & Hall1 & Hprobe1).
  destruct (reconcile_entity run entity_url entity st)
    as [[[]|e] st1]; simpl in *.
  - destruct (IH st1) as (new2 & H2 & Hlen2 & Hall2 & Hprobe2).
    exists (new1 ++ new2)%list.
    rewrite H2, H1, <- app_assoc, length_app, List.filter_app, map_app.
    split; [done|]. split; [lia|]. split; [by apply Forall_app|].
    intros Hok. by rewrite Hprobe1, Hprobe2.
  - exists new1. split; [done|]. split; [lia|]. split; [done|]. done.
Qed.

(** X10: a batch sends at most two requests for each entity it reconciles,
    all of them to resources of its own collection ("/journals/" for the
    journal batch, "/bundles/" for the issue batch, where only the
    publishable issues count), and no body it sends has an ["_id"]. *)
Theorem batch_requests_stay_in_collection (st : Net) :
  (forall journals, exists new,
      sent (process_journals run (Ok journals) st).2 = (sent st ++ new)%list
      /\ (length new <= 2 * length journals)%nat
      /\ Forall (well_addressed KERNEL_API_JOURNAL_ENDPOINT) new)
  /\ (forall issues, exists new,
        sent (process_issues run (Ok issues) st).2 = (sent st ++ new)%list
        /\ (length new <= 2 * length (filter_issues issues))%nat
        /\ Forall (well_addressed KERNEL_API_BUNDLES_ENDPOINT) new).
Proof.
  split.
  - intros journals. unfold process_journals, bind, lift.
    destruct (for_each_entity_trace (map journal_as_kernel journals)
                KERNEL_API_JOURNAL_ENDPOINT st) as (new & H1 & H2 & H3 & _).
    exists new. by rewrite length_map in H2.
  - intros issues. unfold process_issues, bind, lift.
    destruct (comprehension issue_as_kernel (filter_issues issues))
      as [payloads|e] eqn:E.
    + destruct (for_each_entity_trace payloads
                  KERNEL_API_BUNDLES_ENDPOINT st) as (new & H1 & H2 & H3 & _).
      exists new. split; [done|]. split; [|done].
      enough (length payloads = length (filter_issues issues)) by lia.
      clear -E. revert payloads E.
      induction (filter_issues issues) as [|x xs IH]; intros payloads E;
        simpl in E.
      * by injection E as <-.
      * destruct (issue_as_kernel x); [|done]. simpl in E.
        destruct (comprehension issue_as_kernel xs) as [ys|]; [|done].
        injection E as <-. simpl. by rewrite (IH ys).
    + exists []. simpl. rewrite app_nil_r. split; [done|].
      split; [lia | done].
Qed.

(** X11: when the loop over the entities returns, each entity has been
    probed exactly once, in the order of the stream, at the resource
    named by its own ["_id"]. *)
Theorem completed_batch_probed_each_entity_once
    (entities : list dict) (entity_url : string) (st : Net) :
  is_ok (for_each_entity run entities entity_url st).1 = true ->
  exists new,
    sent (for_each_entity run entities entity_url st).2
    = (sent st ++ new)%list
    /\ map endpoint (List.filter is_probe new)
       = map (entity_endpoint entity_url) entities.
Proof.
  intros Hok.
  destruct (for_each_entity_trace entities entity_url st)
    as (new & H1 & _ & _ & H4).
  exists new. split; [done | by apply H4].
Qed.

(** X12: a journal record without any ISSN is reconciled at the resource
    "/journals/None": its ["_id"] is [None], and that is what the
    formatting of the URL renders. *)
Theorem journal_without_issn_goes_to_None
    (journal : Journal) (journals : list Journal) (st : Net) :
  some_str (any_issn journal) = false ->
  scielo_issn journal = None ->
  exists rest,
    sent (process_journals run (Ok (journal :: journals)) st).2
    = (sent st ++ probe KERNEL_API_JOURNAL_ENDPOINT "None" :: rest)%list.
Proof.
  intros Hany Hscielo. unfold process_journals, bind, lift. simpl map.
  rewrite for_each_entity_cons.
  assert (journal_as_kernel journal !! "_id" = Some VNone) as Hid.
  { by rewrite journal_id, Hany, Hscielo. }
  unfold reconcile_entity, bind, lift, pop. rewrite Hid. simpl.
  destruct (register_or_update_shape run "None"
              (delete "_id" (journal_as_kernel journal))
              KERNEL_API_JOURNAL_ENDPOINT st) as (rest & Hsent & _).
  destruct (register_or_update run "None" _ _ st) as [[response|e] st1];
    simpl in *.
  - destruct (for_each_entity_trace (map journal_as_kernel journals)
                KERNEL_API_JOURNAL_ENDPOINT st1) as (new & H1 & _).
    exists (rest ++ new)%list. rewrite H1, Hsent, <- app_assoc. done.
  - by exists rest.
Qed.

End AnyRemoteBatchExtras.

Lemma unpublishable_issue_is_ignored_witness :
  process_issues Kernel.run
                 (Ok ([example_issue] ++ press_release :: [])%list) (start ∅)
  = process_issues Kernel.run (Ok ([example_issue] ++ [])%list) (start ∅).
Proof.
  destruct (unpublishable_issue_is_ignored Kernel.run (start ∅)) as [H _].
  apply (H [example_issue] [] press_release). left. reflexivity.
Defined.

Lemma completed_batch_probed_each_entity_once_witness :
  exists new,
    sent (for_each_entity Kernel.run [journal_as_kernel example_journal]
                          "/journals/" (start ∅)).2
    = ([] ++ new)%list
    /\ map endpoint (List.filter is_probe new)
       = map (entity_endpoint "/journals/")
             [journal_as_kernel example_journal].
Proof.
  apply (completed_batch_probed_each_entity_once Kernel.run
           [journal_as_kernel example_journal] "/journals/" (start ∅)).
  vm_compute; reflexivity.
Defined.

Lemma journal_without_issn_goes_to_None_witness :
  exists rest,
    sent (process_journals Kernel.run (Ok [no_journal]) (start ∅)).2
    = ([] ++ probe "/journals/" "None" :: rest)%list.
Proof.
  apply (journal_without_issn_goes_to_None Kernel.run no_journal []
           (start ∅)); reflexivity.
Defined.

End BatchExtras.

Module NormalizerExtras.
Import Py Xylose KernelGate IssueIdSpec PyFacts IssueIdFacts NormalizerSpec
  NormalizerProofs IssueProofs ExtraSpec.

(** X13: the status of a journal is read from the last entry of its
    status history alone: the payload holds that entry's status, with
    its reason when it has one, whatever the earlier entries are. *)
Theorem status_is_the_latest_entry
    (journal : Journal) (earlier : list (string * string * option string))
    (date status : string) (reason : option string) :
  status_history journal = Some (earlier ++ [(date, status, reason)])%list ->
  journal_as_kernel journal !! "status"
  = Some (VDict (if some_str reason
                 then <["reason" := ostr reason]>
                        {[ "status" := VStr status ]}
                 else {[ "status" := VStr status ]})).
Proof.
  intros H. unfold journal_as_kernel. rewrite H. simpl default.
  rewrite last_snoc.
  destruct (some_list (mission journal)), (some_str reason);
    by simplify_map_eq.
Qed.

Lemma status_is_the_latest_entry_witness :
  journal_as_kernel example_journal !! "status"
  = Some (VDict {[ "status" := VStr "current" ]}).
Proof.
  apply (status_is_the_latest_entry example_journal [] "2019" "current"
           None).
  reflexivity.
Defined.





Lemma issue_as_kernel_with_date date issue :
  issue_as_kernel (with_publication_date date issue)
  = (season ← season_of issue;
     issn_id ← v35_issn issue;
     _creation_date ← parse_date date;
     _id ← issue_id (Some issn_id)
                    (Some (str (Datetime.year _creation_date)))
                    (volume issue) (number issue)
                    (supplement_argument issue);
     Ok (<["_id" := VStr _id]> (issue_body issue season))).
Proof. by rewrite issue_as_kernel_eq. Qed.

(** X16: the publication date of an issue reaches the payload through its
    year alone: two dates that parse to the same year, whatever their
    precision, give the same payload and the same identity. *)
Theorem payload_depends_on_the_year_only
    (issue : Issue) (d1 d2 : option string) (dt1 dt2 : Datetime.datetime) :
  parse_date d1 = Ok dt1 -> parse_date d2 = Ok dt2 ->
  Datetime.year dt1 = Datetime.year dt2 ->
  issue_as_kernel (with_publication_date d1 issue)
  = issue_as_kernel (with_publication_date d2 issue).
Proof.
  intros H1 H2 Hy. rewrite !issue_as_kernel_with_date.
  destruct (season_of issue) as [season|]; [|done].
  destruct (v35_issn issue) as [issn|]; [|done].
  by rewrite H1, H2, !bind_Ok, Hy.
Qed.

Lemma payload_depends_on_the_year_only_witness :
  issue_as_kernel (with_publication_date (Some "2019-06-30") example_issue)
  = issue_as_kernel (with_publication_date (Some "2019") example_issue).
Proof.
  apply (payload_depends_on_the_year_only example_issue _ _
           {| Datetime.year := 2019; Datetime.month := 6;
              Datetime.day := 30 |}
           {| Datetime.year := 2019; Datetime.month := 1;
              Datetime.day := 1 |}); reflexivity.
Defined.

Lemma supplement_text_nonempty issue :
  String.eqb (supplement_text issue) "" = false.
Proof.
  unfold supplement_text, indicator, some_str.
  destruct (supplement_volume issue) as [sv|],
           (supplement_number issue) as [sn|]; simpl;
    repeat case_match; simplify_eq/=; try done;
    by apply negb_true_iff.
Qed.

(** X17: the identity of a supplement always ends with a component
    labelled "s": the supplement text itself, or its integer round trip
    when it passes [isdigit], and "s0" when neither the supplement
    volume nor the supplement number is set. *)
Theorem supplement_issue_id_ends_with_s
    (issue : Issue) (payload : dict) :
  type issue = "supplement" ->
  issue_as_kernel issue = Ok payload ->
  exists front s,
    payload !! "_id" = Some (VStr (join "-" (front ++ ["s" +:+ s])%list))
    /\ (if isdigit (supplement_text issue)
        then exists n, int (supplement_text issue) = Ok n /\ s = str n
        else s = supplement_text issue)
    /\ (some_str (supplement_volume issue) = false ->
        some_str (supplement_number issue) = false -> s = "0").
Proof.
  intros Hty (season & issn & dt & _id & _ & _ & _ & Hid & ->)
         %issue_as_kernel_inv.
  unfold supplement_argument in Hid.
  apply is_literal_spec in Hty. rewrite Hty in Hid.
  unfold issue_id in Hid. rewrite issue_id_parts_eq in Hid.
  destruct (component "v" (volume issue)) as [v|]; [|done].
  destruct (component "n" (number issue)) as [n|]; [|done].
  rewrite !bind_Ok in Hid. unfold component in Hid.
  rewrite supplement_text_nonempty in Hid. simpl negb in Hid. cbv iota in Hid.
  assert (exists s, _id = join "-" ((plain (Some issn)
                       ++ plain (Some (str (Datetime.year dt))) ++ v ++ n)
                       ++ ["s" +:+ s])%list
            /\ (if isdigit (supplement_text issue)
                then exists k, int (supplement_text issue) = Ok k /\ s = str k
                else s = supplement_text issue)) as (s & -> & Hs).
  { destruct (isdigit (supplement_text issue)).
    - destruct (int (supplement_text issue)) as [k|]; [|done].
      simpl in Hid. injection Hid as <-. exists (str k).
      rewrite <- !app_assoc. eauto.
    - simpl in Hid. injection Hid as <-. exists (supplement_text issue).
      by rewrite <- !app_assoc. }
  eexists _, s. rewrite lookup_insert_eq. split; [done|]. split; [done|].
  intros Hv Hn.
  assert (supplement_text issue = "0") as Ht.
  { unfold supplement_text, indicator. by rewrite Hv, Hn. }
  rewrite Ht in Hs. simpl in Hs. destruct Hs as (k & Hk & ->).
  vm_compute in Hk. by injection Hk as <-.
Qed.

Lemma supplement_issue_id_ends_with_s_witness :
  exists front s,
    (<["_id" := VStr "0001-0002-2019-v1-s0"]>
       (issue_body example_issue (VList [VInt 1; VInt 3])) : dict) !! "_id"
    = Some (VStr (join "-" (front ++ ["s" +:+ s])%list))
    /\ (if isdigit (supplement_text example_issue)
        then exists n, int (supplement_text example_issue) = Ok n
                       /\ s = str n
        else s = supplement_text example_issue)
    /\ (some_str (supplement_volume example_issue) = false ->
        some_str (supplement_number example_issue) = false -> s = "0").
Proof.
  apply (supplement_issue_id_ends_with_s example_issue); reflexivity.
Defined.



End NormalizerExtras.

Module IdentityExtras.
Import Py Xylose KernelGate IssueIdSpec PyFacts IssueIdFacts NormalizerSpec
  ExtraSpec.

Lemma chars_append s t : chars (s +:+ t) = (chars s ++ chars t)%list.
Proof.
  induction s as [|c s IH]; [done|].
  change (String c s +:+ t) with (String c (s +:+ t)).
  unfold chars in *. simpl. by rewrite IH.
Qed.

Lemma isdigit_with_hyphen v t : isdigit (v +:+ String "-" t) = false.
Proof.
  unfold isdigit. rewrite chars_append.
  destruct (chars v ++ chars (String "-" t))%list eqn:E.
  { by destruct (chars v). }
  rewrite <- E, forallb_app. unfold chars. simpl.
  apply andb_false_r.
Qed.

Lemma nonempty_append v t : v <> "" -> String.eqb (v +:+ t) "" = false.
Proof. by destruct v. Qed.

Lemma join_last_two sep (l : list string) a b :
  join sep (l ++ [a +:+ sep +:+ b]) = join sep (l ++ [a; b]).
Proof.
  unfold join. induction l as [|x l IH]; [done|].
  destruct l as [|y l]; [done|].
  change (String.concat sep ((x :: y :: l) ++ [a +:+ sep +:+ b]))
    with (x +:+ sep +:+ String.concat sep ((y :: l) ++ [a +:+ sep +:+ b])).
  change (String.concat sep ((x :: y :: l) ++ [a; b]))
    with (x +:+ sep +:+ String.concat sep ((y :: l) ++ [a; b])).
  by rewrite IH.
Qed.

(** X19: the identity does not tell a hyphen inside a component from the
    separator: a volume that reads "<v>-n<n>" with no number gives the
    same identity as volume "<v>" with number "<n>", for texts [v] and
    [n] that do not pass [isdigit]. *)
Theorem issue_id_is_not_injective
    (issn_id year : option string) (v n : string) :
  v <> "" -> n <> "" -> isdigit v = false -> isdigit n = false ->
  issue_id issn_id year (Some (v +:+ "-n" +:+ n)) None None
  = issue_id issn_id year (Some v) (Some n) None.
Proof.
  intros Hv Hn Hdv Hdn. unfold issue_id.
  rewrite !issue_id_parts_eq. unfold component.
  rewrite (nonempty_append v _ Hv).
  apply String.eqb_neq in Hv, Hn. rewrite Hv, Hn, Hdv, Hdn.
  change ("-n" +:+ n) with (String "-" (String "n" n)).
  rewrite isdigit_with_hyphen. simpl. f_equal.
  rewrite !app_assoc.
  change ("v" +:+ v +:+ String "-" (String "n" n))
    with (("v" +:+ v) +:+ "-" +:+ ("n" +:+ n)).
  apply join_last_two.
Qed.

Lemma issue_id_is_not_injective_witness :
  issue_id (Some "0001-0002") (Some "2019") (Some ("1a" +:+ "-n" +:+ "b"))
           None None
  = issue_id (Some "0001-0002") (Some "2019") (Some "1a") (Some "b") None.
Proof.
  apply (issue_id_is_not_injective _ _ "1a" "b");
    [discriminate | discriminate | reflexivity | reflexivity].
Defined.

Lemma in_class_bounds lo hi c d :
  Datetime.in_class lo hi c = Some d -> lo <= d <= hi.
Proof.
  unfold Datetime.in_class. case_match; [|done]. intros [= <-]. lia.
Qed.

Lemma directive_Y_bounds cs y rest :
  Datetime.directive_Y cs = Some (y, rest) -> 0 <= y <= 9999.
Proof.
  unfold Datetime.directive_Y.
  destruct cs as [|a [|b [|c [|d cs]]]]; try done.
  destruct (Datetime.in_class 0 9 a) as [x1|] eqn:E1; [|done].
  destruct (Datetime.in_class 0 9 b) as [x2|] eqn:E2; [|done].
  destruct (Datetime.in_class 0 9 c) as [x3|] eqn:E3; [|done].
  destruct (Datetime.in_class 0 9 d) as [x4|] eqn:E4; [|done].
  simpl. intros [= <- <-].
  apply in_class_bounds in E1, E2, E3, E4. lia.
Qed.

Lemma directive_m_bounds cs m rest :
  Datetime.directive_m cs = Some (m, rest) -> 1 <= m <= 12.
Proof.
  unfold Datetime.directive_m. destruct cs as [|a cs]; [done|].
  destruct cs as [|b cs].
  - destruct (Datetime.in_class 1 9 a) eqn:E; [|done]. simpl.
    intros [= <- <-]. apply in_class_bounds in E. lia.
  - destruct (Datetime.in_class 1 1 a) eqn:E1,
             (Datetime.in_class 0 2 b) eqn:E2,
             (Datetime.in_class 0 0 a) eqn:E3,
             (Datetime.in_class 1 9 b) eqn:E4,
             (Datetime.in_class 1 9 a) eqn:E5; simpl;
      try done; intros [= <- <-];
      repeat match goal with
             | H : Datetime.in_class _ _ _ = Some _ |- _ =>
                 apply in_class_bounds in H
             end; lia.
Qed.

Lemma directive_d_bounds cs d rest :
  Datetime.directive_d cs = Some (d, rest) -> 1 <= d <= 31.
Proof.
  unfold Datetime.directive_d. destruct cs as [|a cs]; [done|].
  destruct cs as [|b cs].
  - destruct (Datetime.in_class 1 9 a) eqn:E; [|done].
    intros [= <- <-]. apply in_class_bounds in E. lia.
  - destruct (Datetime.in_class 3 3 a) eqn:E1,
             (Datetime.in_class 0 1 b) eqn:E2,
             (Datetime.in_class 1 2 a) eqn:E3,
             (Datetime.in_class 0 9 b) eqn:E4,
             (Datetime.in_class 0 0 a) eqn:E5,
             (Datetime.in_class 1 9 b) eqn:E6,
             (Datetime.in_class 1 9 a) eqn:E7,
             (code a =? 32); simpl;
      try done; intros [= <- <-];
      repeat match goal with
             | H : Datetime.in_class _ _ _ = Some _ |- _ =>
                 apply in_class_bounds in H
             end; lia.
Qed.

Lemma strptime_bounds date f dt :
  Datetime.strptime date f = Ok dt ->
  1 <= Datetime.year dt <= 9999
  /\ 1 <= Datetime.month dt <= 12
  /\ 1 <= Datetime.day dt
          <= Datetime.days_in_month (Datetime.year dt) (Datetime.month dt).
Proof.
  unfold Datetime.strptime. destruct date as [s|]; [|done].
  destruct (Datetime.match_format f (chars s)) as [[dt' [|]]|] eqn:E;
    [|done|done].
  case_match eqn:Hvalid; [|done]. intros [= ->].
  apply andb_prop in Hvalid as [Hy Hd].
  unfold Datetime.match_format in E.
  destruct (Datetime.directive_Y (chars s)) as [[y cs]|] eqn:EY; [|done].
  apply directive_Y_bounds in EY. simpl in E.
  destruct f.
  - destruct (Datetime.dash cs) as [cs1|]; [|done]. simpl in E.
    destruct (Datetime.directive_m cs1) as [[m cs2]|] eqn:EM; [|done].
    apply directive_m_bounds in EM. simpl in E.
    destruct (Datetime.dash cs2) as [cs3|]; [|done]. simpl in E.
    destruct (Datetime.directive_d cs3) as [[d cs4]|] eqn:ED; [|done].
    apply directive_d_bounds in ED. simpl in E.
    injection E as <- ?. simpl in *. lia.
  - destruct (Datetime.dash cs) as [cs1|]; [|done]. simpl in E.
    destruct (Datetime.directive_m cs1) as [[m cs2]|] eqn:EM; [|done].
    apply directive_m_bounds in EM. simpl in E.
    injection E as <- ?. simpl in *. lia.
  - injection E as <- ?. simpl in *. lia.
Qed.

(** X20: a date that [parse_date] returns is a date of the calendar,
    between the years 1 and 9999, whichever of the three formats matched;
    anything else (a month 13, a 30th of February, the year 0000) raises
    instead. *)
Theorem parsed_date_is_a_calendar_date
    (date : option string) (dt : Datetime.datetime) :
  parse_date date = Ok dt ->
  1 <= Datetime.year dt <= 9999
  /\ 1 <= Datetime.month dt <= 12
  /\ 1 <= Datetime.day dt
          <= Datetime.days_in_month (Datetime.year dt) (Datetime.month dt).
Proof.
  unfold parse_date, Datetime.try_except_ValueError.
  destruct (Datetime.strptime date Datetime.Ymd) as [d1|[]] eqn:E1;
    try done; [by intros [= <-]; eapply strptime_bounds|].
  destruct (Datetime.strptime date Datetime.Ym) as [d2|[]] eqn:E2;
    try done; [by intros [= <-]; eapply strptime_bounds|].
  intros H. by eapply strptime_bounds.
Qed.

Lemma parsed_date_is_a_calendar_date_witness :
  1 <= 2020 <= 9999 /\ 1 <= 2 <= 12
  /\ 1 <= 29 <= Datetime.days_in_month 2020 2.
Proof.
  apply (parsed_date_is_a_calendar_date (Some "2020-02-29")
           {| Datetime.year := 2020; Datetime.month := 2;
              Datetime.day := 29 |}).
  reflexivity.
Defined.

End IdentityExtras.
